(** * Rendevo SDK: the HTTP request layer

    A shallow embedding of [core/base-client.ts] (class [BaseClient] and
    [RendevoAPIError]), of [api/auth.api.ts], [api/users.api.ts] and
    [client.ts] (classes [AuthAPI], [UsersAPI] and [RendevoClient]) and
    of the factories of the test helpers, with the properties stated
    about them.

    JavaScript values are an inductive type, header records are finite
    maps from strings to strings, and asynchronous methods are functions
    in a state-and-exception monad whose state holds the client object,
    the outcomes the network will produce and the trace of the effects
    performed so far ([fetch], timers, body parsing, back-off delays). *)

From Stdlib Require Import ZArith String Ascii List Bool Lia.
From stdpp Require Import base strings gmap pretty.

Set Warnings "-register-all".

Local Open Scope string_scope.
Local Open Scope list_scope.
Local Open Scope Z_scope.

(** * The model *)

(** ** JavaScript values *)

Module JS.

(** Numbers: [NaN] and the Numbers of integral value.  [Int z] is the
    Number nearest to the integer [z] (the Number of a literal written
    [z]): [z] itself up to 2^53 and wherever [z] is a Number, an infinity
    from 2^1024 on.  Numbers with a fractional part are not represented.
    The code inspects numbers for truthiness (zero and [NaN] are falsy)
    and with [>= 500], and prints them. *)
Inductive number :=
| NaN
| Int (z : Z).

(** The values: those [response.json()] produces, [undefined], [NaN]
    and symbols.  [VSym] is a symbol, a truthy primitive for which
    [JSON.stringify] has no text.  Functions (and with them objects that
    carry methods, such as [toJSON]) and BigInts are not represented.
    An object is the list of its properties, each key once, in the order
    in which they are enumerated. *)
Inductive value :=
| VUndefined
| VNull
| VBool (b : bool)
| VNum (n : number)
| VStr (s : string)
| VArr (items : list value)
| VObj (props : list (string * value))
| VSym.

Definition number_truthy (n : number) : bool :=
  match n with
  | NaN => false
  | Int z => negb (z =? 0)
  end.

Definition string_truthy (s : string) : bool :=
  match s with
  | EmptyString => false
  | String _ _ => true
  end.

(** [ToBoolean]: what [if (v)] and [v ? a : b] test. *)
Definition truthy (v : value) : bool :=
  match v with
  | VUndefined => false
  | VNull => false
  | VBool b => b
  | VNum n => number_truthy n
  | VStr s => string_truthy s
  | VArr _ => true
  | VObj _ => true
  | VSym => true
  end.

(** [typeof v === 'object' && v !== null] *)
Definition is_object (v : value) : bool :=
  match v with
  | VArr _ | VObj _ => true
  | _ => false
  end.

Definition is_undefined (v : value) : bool :=
  match v with
  | VUndefined => true
  | _ => false
  end.

(** [typeof v === 'string'] *)
Definition is_string (v : value) : bool :=
  match v with
  | VStr _ => true
  | _ => false
  end.

Fixpoint lookup_prop (k : string) (props : list (string * value)) : option value :=
  match props with
  | [] => None
  | (k', v) :: rest => if String.eqb k k' then Some v else lookup_prop k rest
  end.

(** [k in v] for a value that passed [is_object].  The keys of an array
    are its indices and [length]; the code asks only for the names
    [message], [statusCode], [data] and [success]. *)
Definition has_key (k : string) (v : value) : bool :=
  match v with
  | VObj props =>
      match lookup_prop k props with
      | Some _ => true
      | None => false
      end
  | _ => false
  end.

(** [v.k] on an object; [undefined] when the key is missing. *)
Definition prop (k : string) (v : value) : value :=
  match v with
  | VObj props => default VUndefined (lookup_prop k props)
  | _ => VUndefined
  end.

(** [a || b] on an optional number and on an optional string. *)
Definition number_or (a : option number) (b : number) : number :=
  match a with
  | Some n => if number_truthy n then n else b
  | None => b
  end.

Definition string_or (a : option string) (b : string) : string :=
  match a with
  | Some s => if string_truthy s then s else b
  | None => b
  end.

(** [String.prototype.includes]: [includes needle s] is [s.includes(needle)]. *)
Fixpoint includes (needle s : string) : bool :=
  String.prefix needle s ||
  match s with
  | EmptyString => false
  | String _ rest => includes needle rest
  end.

(** [s.replace(/\/$/, '')]: without the [m] flag [$] matches at the end
    of the input only, so at most the last character is removed. *)
Fixpoint strip_trailing_slash (s : string) : string :=
  match s with
  | EmptyString => EmptyString
  | String c EmptyString => if Ascii.eqb c "/" then EmptyString else s
  | String c rest => String c (strip_trailing_slash rest)
  end.

(** *** Numbers as text *)

(** The Number nearest to the integer [a >= 0], as the integer it is:
    53 significant bits, ties to the even one; [None] for [Infinity]. *)
Definition nearest_number (a : Z) : option Z :=
  if a <? 9007199254740992 then Some a
  else
    let e := Z.log2 a - 52 in
    let q := Z.shiftr a e in
    let r := a - Z.shiftl q e in
    let half := Z.shiftl 1 (e - 1) in
    let q' := if (half <? r) || ((r =? half) && Z.odd q) then q + 1 else q in
    let d := Z.shiftl q' e in
    if Z.log2 d <? 1024 then Some d else None.

Definition rounds_to (x v : Z) : bool :=
  match nearest_number v with
  | Some d => d =? x
  | None => false
  end.

(** The decimal with the fewest significant digits among those whose
    nearest Number is [x]; of two with as few digits the one closer to
    [x], then the one whose last digit is even.  The candidates are the
    multiples of [10^p] next to [x], for [p] from the number of digits
    of [x] downwards. *)
Fixpoint shortest_decimal (x : Z) (p : nat) : Z :=
  match p with
  | O => x
  | S p' =>
      let g := 10 ^ Z.of_nat p in
      let lo := x / g * g in
      let hi := lo + g in
      match rounds_to x lo, rounds_to x hi with
      | true, true =>
          if x - lo <? hi - x then lo
          else if hi - x <? x - lo then hi
          else if Z.even (lo / g) then lo else hi
      | true, false => lo
      | false, true => hi
      | false, false => shortest_decimal x p'
      end
  end.

Fixpoint strip_zeros (fuel : nat) (s : Z) : Z :=
  match fuel with
  | O => s
  | S fuel' => if s mod 10 =? 0 then strip_zeros fuel' (s / 10) else s
  end.

(** [d.ddde+n]: the significant digits of [v > 0], a point after the
    first when there are more, and the exponent. *)
Definition exponent_form (v : Z) : string :=
  let n := String.length (pretty v) in
  match pretty (strip_zeros n v) with
  | String d EmptyString => String d EmptyString
  | String d rest => String d ("." +:+ rest)
  | EmptyString => EmptyString
  end +:+ "e+" +:+ pretty (Z.of_nat n - 1).

(** [Number::toString] of the Number nearest to [a >= 0]: the decimal
    digits up to 21 of them, the exponent form from 1e21 on. *)
Definition magnitude_to_string (a : Z) : string :=
  if a <? 9007199254740992 then pretty a
  else
    match nearest_number a with
    | None => "Infinity"
    | Some x =>
        let v := shortest_decimal x (String.length (pretty x) - 1) in
        if (21 <? String.length (pretty v))%nat then exponent_form v else pretty v
    end.

Definition number_finite (n : number) : bool :=
  match n with
  | NaN => false
  | Int z =>
      match nearest_number (Z.abs z) with
      | Some _ => true
      | None => false
      end
  end.

(** Number to string, as in a template literal. *)
Definition number_to_string (n : number) : string :=
  match n with
  | NaN => "NaN"
  | Int z =>
      if z <? 0 then "-" +:+ magnitude_to_string (- z) else magnitude_to_string z
  end.

(** *** [JSON.stringify] *)

Definition dquote : string := String (ascii_of_nat 34) EmptyString.
Definition backslash : string := String (ascii_of_nat 92) EmptyString.

Definition hex_digit (n : nat) : ascii :=
  nth n (list_ascii_of_string "0123456789abcdef") "0"%char.

Definition escape_char (c : ascii) : string :=
  let n := nat_of_ascii c in
  if (n =? 34)%nat then backslash +:+ dquote
  else if (n =? 92)%nat then backslash +:+ backslash
  else if (n =? 8)%nat then backslash +:+ "b"
  else if (n =? 9)%nat then backslash +:+ "t"
  else if (n =? 10)%nat then backslash +:+ "n"
  else if (n =? 12)%nat then backslash +:+ "f"
  else if (n =? 13)%nat then backslash +:+ "r"
  else if (n <? 32)%nat then
    backslash +:+ "u00" +:+
    String (hex_digit (n / 16)) (String (hex_digit (n mod 16)) EmptyString)
  else String c EmptyString.

Fixpoint escape (s : string) : string :=
  match s with
  | EmptyString => EmptyString
  | String c rest => escape_char c +:+ escape rest
  end.

Definition quote (s : string) : string := dquote +:+ escape s +:+ dquote.

Fixpoint join (sep : string) (parts : list string) : string :=
  match parts with
  | [] => EmptyString
  | [p] => p
  | p :: rest => p +:+ sep +:+ join sep rest
  end.

(** The values [JSON.stringify] has no text for: [undefined] and the
    symbols. *)
Definition without_text (v : value) : bool :=
  match v with
  | VUndefined | VSym => true
  | _ => false
  end.

(** The text of a value in element or property position: a value
    without a text prints as [null] inside an array, and a property that
    holds one is left out; [NaN] and the infinities print as [null]. *)
Fixpoint serialize (v : value) : string :=
  match v with
  | VUndefined => "null"
  | VSym => "null"
  | VNull => "null"
  | VBool true => "true"
  | VBool false => "false"
  | VNum n => if number_finite n then number_to_string n else "null"
  | VStr s => quote s
  | VArr items => "[" +:+ join "," (List.map serialize items) +:+ "]"
  | VObj props =>
      "{" +:+
      join "," (List.flat_map
                  (fun '(k, w) =>
                     if without_text w then []
                     else [quote k +:+ ":" +:+ serialize w]) props) +:+
      "}"
  end.

(** [JSON.stringify(v)]: [undefined] for a value without a text. *)
Definition JSON_stringify (v : value) : option string :=
  if without_text v then None else Some (serialize v).

End JS.
Import JS.

Abbreviation Headers := (gmap string string).

(** ** The records of [types/common.ts] and of the fetch interface *)

Module ClientConfig.
Record t := {
  baseURL : string;
  timeout : option number;
  headers : option Headers
}.
End ClientConfig.

Module RequestOptions.
Record t := {
  timeout : option number;
  headers : option Headers
}.
End RequestOptions.

(** [RequestInit & RequestOptions]: the fields of the argument of
    [request] and [executeRequest] that the client sets or reads. *)
Module RequestInit.
Record t := {
  method : option string;
  body : option string;
  timeout : option number;
  headers : option Headers
}.

Definition empty : t :=
  {| method := None; body := None; timeout := None; headers := None |}.
End RequestInit.

(** What [fetch] is called with: the URL and the init object
    [{...options, headers, signal, redirect: 'follow'}]. *)
Module FetchCall.
Record t := {
  url : string;
  method : option string;
  body : option string;
  headers : Headers;
  redirect : string
}.
End FetchCall.

Module Response.
(** The outcome of [response.json()]: the parsed body, or the error it
    rejects with when the body is not JSON text. *)
Inductive body :=
| Parsed (data : value)
| Unparsable (name message : string).

Record t := {
  status : Z;
  content_type : option string;
  json : body
}.

(** [response.ok]: the status is in the range 200-299. *)
Definition ok (r : t) : bool := (200 <=? status r) && (status r <=? 299).
Arguments ok : simpl never.
End Response.

(** The fields of a [BaseClient] instance. *)
Module BaseClient.
Record t := {
  baseURL : string;
  timeout : number;
  defaultHeaders : Headers;
  token : option string;
  refreshToken : option string
}.
End BaseClient.

(** ** Thrown values, effects and the monad of asynchronous methods *)

(** What a [throw] can carry: a [RendevoAPIError], another [Error]
    instance (with its [name] and [message]), or a value that is not an
    [Error] instance. *)
Inductive Thrown :=
| RendevoAPIError (statusCode : Z) (response : value)
| Error (name message : string)
| NonError.

(** [new Error(message)] *)
Definition new_Error (message : string) : Thrown := Error "Error" message.

Inductive Result (A : Type) :=
| Return (a : A)
| Throw (e : Thrown).
Arguments Return {A} a.
Arguments Throw {A} e.

(** How a call of [fetch] settles. *)
Inductive Outcome :=
| Resolves (r : Response.t)
| RejectsError (name message : string)
| RejectsOther.

(** The effects of the client: [setTimeout(abort, ms)],
    [clearTimeout(timeoutId)], [fetch(url, init)], [response.json()] and
    [await this.delay(ms)]. *)
Inductive Event :=
| EvSetTimeout (ms : number)
| EvClearTimeout
| EvFetch (call : FetchCall.t)
| EvJson
| EvDelay (ms : Z).

(** The markers read by [request] to detect a test run. *)
Record Env := {
  NODE_ENV : option string;
  VITEST : option string;
  vitest_defined : bool
}.

(** The client object together with its surroundings: [network k] is how
    the [k]-th call of [fetch] settles, [clock k] is the ISO time read
    after [k] effects, [trace] lists the effects performed, oldest first. *)
Record State := {
  this : BaseClient.t;
  env : Env;
  network : nat -> Outcome;
  clock : nat -> string;
  trace : list Event
}.

Definition Async (A : Type) : Type := State -> Result A * State.

Definition ret {A} (a : A) : Async A := fun st => (Return a, st).

Definition throw {A} (e : Thrown) : Async A := fun st => (Throw e, st).

Definition bind {A B} (m : Async A) (k : A -> Async B) : Async B :=
  fun st =>
    match m st with
    | (Return a, st') => k a st'
    | (Throw e, st') => (Throw e, st')
    end.

(** [try { m } catch (error) { h error }] *)
Definition try_catch {A} (m : Async A) (h : Thrown -> Async A) : Async A :=
  fun st =>
    match m st with
    | (Return a, st') => (Return a, st')
    | (Throw e, st') => h e st'
    end.

Notation "'let*' x ':=' m 'in' k" := (bind m (fun x => k))
  (at level 10, x name, m at level 100, k at level 200).
Notation "m ';;' k" := (bind m (fun _ => k))
  (at level 100, k at level 200, right associativity).

Definition with_trace (tr : list Event) (st : State) : State :=
  {| this := this st; env := env st; network := network st;
     clock := clock st; trace := tr |}.

Definition with_this (c : BaseClient.t) (st : State) : State :=
  {| this := c; env := env st; network := network st;
     clock := clock st; trace := trace st |}.

Definition emit (e : Event) : Async unit :=
  fun st => (Return tt, with_trace (trace st ++ [e]) st).

Definition read_this : Async BaseClient.t := fun st => (Return (this st), st).

Definition read_env : Async Env := fun st => (Return (env st), st).

(** The [fetch] calls of a trace, and the back-off delays of a trace. *)
Fixpoint calls (tr : list Event) : list FetchCall.t :=
  match tr with
  | [] => []
  | EvFetch call :: rest => call :: calls rest
  | _ :: rest => calls rest
  end.

Fixpoint delays (tr : list Event) : list Z :=
  match tr with
  | [] => []
  | EvDelay ms :: rest => ms :: delays rest
  | _ :: rest => delays rest
  end.

(** The number of [fetch] calls made so far. *)
Definition fetch_count (tr : list Event) : nat := length (calls tr).

(** [fetch(url, init)] *)
Definition fetch (call : FetchCall.t) : Async Response.t :=
  fun st =>
    let st' := with_trace (trace st ++ [EvFetch call]) st in
    match network st (fetch_count (trace st)) with
    | Resolves r => (Return r, st')
    | RejectsError name message => (Throw (Error name message), st')
    | RejectsOther => (Throw NonError, st')
    end.

(** [response.json()] *)
Definition response_json (r : Response.t) : Async value :=
  emit EvJson ;;
  match Response.json r with
  | Response.Parsed data => ret data
  | Response.Unparsable name message => throw (Error name message)
  end.

(** [new Date().toISOString()] *)
Definition toISOString : Async string :=
  fun st => (Return (clock st (length (trace st))), st).

(** ** [BaseClient] *)

(** [constructor(config)] *)
Definition constructor (config : ClientConfig.t) : BaseClient.t :=
  {| BaseClient.baseURL := strip_trailing_slash (ClientConfig.baseURL config);
     BaseClient.timeout := number_or (ClientConfig.timeout config) (Int 10000);
     BaseClient.defaultHeaders :=
       (* [{ 'Content-Type': 'application/json', ...config.headers }]:
          the later entry wins, and stdpp's union is left-biased *)
       default ∅ (ClientConfig.headers config) ∪
       {[ "Content-Type" := "application/json" ]};
     BaseClient.token := None;
     BaseClient.refreshToken := None |}.

Definition set_token (tok : option string) (c : BaseClient.t) : BaseClient.t :=
  {| BaseClient.baseURL := BaseClient.baseURL c;
     BaseClient.timeout := BaseClient.timeout c;
     BaseClient.defaultHeaders := BaseClient.defaultHeaders c;
     BaseClient.token := tok;
     BaseClient.refreshToken := BaseClient.refreshToken c |}.

Definition set_refreshToken (tok : option string) (c : BaseClient.t) : BaseClient.t :=
  {| BaseClient.baseURL := BaseClient.baseURL c;
     BaseClient.timeout := BaseClient.timeout c;
     BaseClient.defaultHeaders := BaseClient.defaultHeaders c;
     BaseClient.token := BaseClient.token c;
     BaseClient.refreshToken := tok |}.

Definition setToken (token : string) : Async unit :=
  fun st => (Return tt, with_this (set_token (Some token) (this st)) st).

Definition clearToken : Async unit :=
  fun st => (Return tt, with_this (set_token None (this st)) st).

Definition getToken : Async (option string) :=
  fun st => (Return (BaseClient.token (this st)), st).

Definition setRefreshToken (token : string) : Async unit :=
  fun st => (Return tt, with_this (set_refreshToken (Some token) (this st)) st).

Definition getRefreshToken : Async (option string) :=
  fun st => (Return (BaseClient.refreshToken (this st)), st).

Definition clearRefreshToken : Async unit :=
  fun st => (Return tt, with_this (set_refreshToken None (this st)) st).

Definition isRetryableError (error : Thrown) : bool :=
  match error with
  | RendevoAPIError statusCode _ => 500 <=? statusCode
  | Error _ message =>
      includes "Network error" message ||
      includes "fetch failed" message ||
      includes "ECONNREFUSED" message
  | NonError => false
  end.

Definition delay (ms : Z) : Async unit := emit (EvDelay ms).

Definition isTestEnv (e : Env) : bool :=
  match NODE_ENV e with Some s => String.eqb s "test" | None => false end ||
  match VITEST e with Some s => String.eqb s "true" | None => false end ||
  vitest_defined e.

(** The header record of an attempt: [{...this.defaultHeaders,
    ...options.headers}], then [Authorization] when [this.token] is truthy. *)
Definition merged_headers (c : BaseClient.t) (options : RequestInit.t) : Headers :=
  let headers := default ∅ (RequestInit.headers options) ∪ BaseClient.defaultHeaders c in
  match BaseClient.token c with
  | Some token =>
      if string_truthy token
      then <[ "Authorization" := "Bearer " +:+ token ]> headers
      else headers
  | None => headers
  end.

(** The payload built for an error body that is not error-shaped. *)
Definition synthesized_payload (status : Z) (timestamp endpoint : string)
    (options : RequestInit.t) (data : value) : value :=
  VObj [ ("success", VBool false);
         ("statusCode", VNum (Int status));
         ("timestamp", VStr timestamp);
         ("path", VStr endpoint);
         ("method", VStr (string_or (RequestInit.method options) "GET"));
         ("message", match data with
                     | VStr s => VStr s
                     | _ => VStr "An error occurred"
                     end) ].

Definition wrapped (data : value) (timestamp : string) : value :=
  VObj [ ("success", VBool true); ("data", data); ("timestamp", VStr timestamp) ].

(** [typeof data === 'object' && data !== null && 'message' in data &&
    'statusCode' in data] *)
Definition error_shaped (data : value) : bool :=
  is_object data && has_key "message" data && has_key "statusCode" data.

(** [typeof data === 'object' && data !== null && 'data' in data &&
    'success' in data] *)
Definition envelope_shaped (data : value) : bool :=
  is_object data && has_key "data" data && has_key "success" data.

(** [contentType?.includes('application/json')] *)
Definition content_type_is_json (contentType : option string) : bool :=
  match contentType with
  | Some ct => includes "application/json" ct
  | None => false
  end.

(** The argument of [fetch] in an attempt. *)
Definition fetch_call (self : BaseClient.t) (endpoint : string)
    (options : RequestInit.t) : FetchCall.t :=
  {| FetchCall.url := BaseClient.baseURL self +:+ endpoint;
     FetchCall.method := RequestInit.method options;
     FetchCall.body := RequestInit.body options;
     FetchCall.headers := merged_headers self options;
     FetchCall.redirect := "follow" |}.

(** [options.timeout || this.timeout] *)
Definition timeout_ms (self : BaseClient.t) (options : RequestInit.t) : number :=
  number_or (RequestInit.timeout options) (BaseClient.timeout self).

(** What the [catch] block of [executeRequest] throws for the value it
    caught. *)
Definition rethrown (self : BaseClient.t) (endpoint : string)
    (options : RequestInit.t) (error : Thrown) : Thrown :=
  match error with
  | RendevoAPIError _ _ => error
  | Error name message =>
      if String.eqb name "AbortError" then
        new_Error ("Request timeout: The request to " +:+ endpoint +:+
                   " took longer than " +:+
                   number_to_string (timeout_ms self options) +:+ "ms")
      else if includes "CORS" message || includes "Network request failed" message
      then
        new_Error ("Network error: Unable to reach " +:+ BaseClient.baseURL self +:+
                   ". This may be due to CORS policy or network connectivity issues.")
      else error
  | NonError => new_Error "An unexpected error occurred"
  end.

Definition executeRequest (endpoint : string) (options : RequestInit.t) : Async value :=
  let* self := read_this in
  emit (EvSetTimeout (timeout_ms self options)) ;;
  try_catch
    (let* response := fetch (fetch_call self endpoint options) in
     emit EvClearTimeout ;;
     let contentType := Response.content_type response in
     if negb (content_type_is_json contentType) then
       throw (new_Error ("Invalid response format: expected JSON but got " +:+
                         string_or contentType "unknown"))
     else
       let* data := response_json response in
       if negb (Response.ok response) then
         if error_shaped data
         then throw (RendevoAPIError (Response.status response) data)
         else
           let* timestamp := toISOString in
           throw (RendevoAPIError (Response.status response)
                    (synthesized_payload (Response.status response) timestamp
                       endpoint options data))
       else if envelope_shaped data
       then ret data
       else
         let* timestamp := toISOString in
         ret (wrapped data timestamp))
    (fun error =>
       emit EvClearTimeout ;;
       let* self := read_this in
       throw (rethrown self endpoint options error)).

Definition maxRetries : nat := 3.

(** The [for] loop of [request]: [remaining] iterations are left, the
    counter is [attempt] (so [remaining = maxRetries - attempt]); after
    the last iteration comes the [throw] that follows the loop. *)
Fixpoint request_loop (remaining attempt : nat) (lastError : option Thrown)
    (endpoint : string) (options : RequestInit.t) : Async value :=
  match remaining with
  | O =>
      throw (match lastError with
             | Some e => e
             | None => new_Error "Request failed after retries"
             end)
  | S remaining' =>
      try_catch (executeRequest endpoint options)
        (fun error =>
           if (attempt =? maxRetries - 1)%nat || negb (isRetryableError error)
           then throw error
           else
             delay (2 ^ Z.of_nat attempt * 1000) ;;
             request_loop remaining' (S attempt) (Some error) endpoint options)
  end.

Definition request (endpoint : string) (options : RequestInit.t) : Async value :=
  let* e := read_env in
  if isTestEnv e then executeRequest endpoint options
  else request_loop maxRetries 0 None endpoint options.

(** [{ method, body, ...options }] with [options?: RequestOptions] *)
Definition init (method : string) (body : option string)
    (options : option RequestOptions.t) : RequestInit.t :=
  {| RequestInit.method := Some method;
     RequestInit.body := body;
     RequestInit.timeout := o ← options; RequestOptions.timeout o;
     RequestInit.headers := o ← options; RequestOptions.headers o |}.

(** [body ? JSON.stringify(body) : undefined] *)
Definition body_text (body : value) : option string :=
  if truthy body then JSON_stringify body else None.

Definition get (endpoint : string) (options : option RequestOptions.t) : Async value :=
  let* response := request endpoint (init "GET" None options) in
  ret (prop "data" response).

Definition post (endpoint : string) (body : value)
    (options : option RequestOptions.t) : Async value :=
  let* response := request endpoint (init "POST" (body_text body) options) in
  ret (prop "data" response).

Definition patch (endpoint : string) (body : value)
    (options : option RequestOptions.t) : Async value :=
  let* response := request endpoint (init "PATCH" (body_text body) options) in
  ret (prop "data" response).

Definition put (endpoint : string) (body : value)
    (options : option RequestOptions.t) : Async value :=
  let* response := request endpoint (init "PUT" (body_text body) options) in
  ret (prop "data" response).

Definition delete (endpoint : string) (options : option RequestOptions.t) : Async value :=
  let* response := request endpoint (init "DELETE" None options) in
  ret (prop "data" response).

(** ** [AuthAPI] *)

(** *** Tokens read out of a response *)

(** [v.k] for an arbitrary value: reading a property of [undefined] or of
    [null] throws a [TypeError] (the message is the one of V8); a
    primitive or an array has no property of the names read here. *)
Definition member (k : string) (v : value) : Result value :=
  match v with
  | VUndefined =>
      Throw (Error "TypeError"
               ("Cannot read properties of undefined (reading '" +:+ k +:+ "')"))
  | VNull =>
      Throw (Error "TypeError"
               ("Cannot read properties of null (reading '" +:+ k +:+ "')"))
  | _ => Return (prop k v)
  end.

(** What a field declared [token?: string] holds once it is assigned [v]:
    a string, or nothing for [undefined].  The declared type has no other
    value and neither has [BaseClient.t]: for those the answer is [None],
    and a method that would store one is undefined there. *)
Definition as_token (v : value) : option (option string) :=
  match v with
  | VStr s => Some (Some s)
  | VUndefined => Some None
  | _ => None
  end.

(** Methods that store a token taken from a response: an [Async] method
    that is undefined where the response holds a token the fields cannot
    represent. *)
Definition Typed (A : Type) : Type := State -> option (Result A * State).

Definition lift {A} (m : Async A) : Typed A := fun st => Some (m st).

Definition tbind {A B} (m : Typed A) (k : A -> Typed B) : Typed B :=
  fun st =>
    match m st with
    | Some (Return a, st') => k a st'
    | Some (Throw e, st') => Some (Throw e, st')
    | None => None
    end.

(** [this.setToken(data.k)] and [this.setRefreshToken(data.k)], with [set]
    the field update. *)
Definition assign (set : option string -> BaseClient.t -> BaseClient.t)
    (k : string) (data : value) : Typed unit :=
  fun st =>
    match member k data with
    | Throw e => Some (Throw e, st)
    | Return v =>
        match as_token v with
        | Some tok => Some (Return tt, with_this (set tok (this st)) st)
        | None => None
        end
    end.

Module AuthAPI.

(** [AuthAPI.login] *)
Definition login (credentials : value) : Typed value :=
  tbind (lift (post "/auth/login" credentials None)) (fun data =>
  tbind (assign set_token "access_token" data) (fun _ =>
  lift (ret data))).

(** [AuthAPI.register] *)
Definition register (userData : value) : Typed value :=
  tbind (lift (post "/auth/register" userData None)) (fun data =>
  tbind (assign set_token "access_token" data) (fun _ =>
  tbind (assign set_refreshToken "refresh_token" data) (fun _ =>
  lift (ret data)))).

(** [AuthAPI.refresh] *)
Definition refresh (data : value) : Typed value :=
  tbind (lift (post "/auth/refresh" data None)) (fun response =>
  tbind (assign set_token "access_token" response) (fun _ =>
  tbind (assign set_refreshToken "refresh_token" response) (fun _ =>
  lift (ret response)))).

Definition logout (data : value) : Async value :=
  let* response := post "/auth/logout" data None in
  clearToken ;;
  clearRefreshToken ;;
  ret response.

Definition forgotPassword (data : value) : Async value :=
  post "/auth/forgot-password" data None.

Definition resetPassword (data : value) : Async value :=
  post "/auth/reset-password" data None.

Definition verifyEmail (data : value) : Async value :=
  post "/auth/verify-email" data None.

Definition resendVerification (data : value) : Async value :=
  post "/auth/resend-verification" data None.

End AuthAPI.

(** ** [UsersAPI] *)

Module UsersAPI.

Definition getAll : Async value := get "/users" None.

Definition getById (id : string) : Async value := get ("/users/" +:+ id) None.

Definition update (id : string) (data : value) : Async value :=
  patch ("/users/" +:+ id) data None.

(** [await this.delete<void>(...)] with no [return]: resolves with
    [undefined]. *)
Definition remove (id : string) : Async value :=
  delete ("/users/" +:+ id) None ;;
  ret VUndefined.

Definition getMe : Async value := get "/users/me" None.

End UsersAPI.

(** ** [RendevoClient] *)

Module RendevoClient.

(** The elements of [_apis]. *)
Inductive Api :=
| Auth
| Users.

(** The two API objects of a client, each with its own fields. *)
Record t := {
  auth : BaseClient.t;
  users : BaseClient.t
}.

Definition _apis : list Api := [Auth; Users].

Definition api (a : Api) (c : t) : BaseClient.t :=
  match a with
  | Auth => auth c
  | Users => users c
  end.

(** Apply a method that updates fields to one of the API objects. *)
Definition on_api (a : Api) (f : BaseClient.t -> BaseClient.t) (c : t) : t :=
  match a with
  | Auth => {| auth := f (auth c); users := users c |}
  | Users => {| auth := auth c; users := f (users c) |}
  end.

(** [constructor(config)]: both objects are built from the same
    configuration, then [_linkTokenManagement()] replaces the four token
    methods of [auth] by the ones below. *)
Definition constructor (config : ClientConfig.t) : t :=
  {| auth := constructor config; users := constructor config |}.

(** A method of [auth] as replaced by [_linkTokenManagement]: the
    original method on [auth], then
    [_apis.forEach(api => { if (api !== this.auth) api.method() })]. *)
Definition linked (f : BaseClient.t -> BaseClient.t) (c : t) : t :=
  fold_left
    (fun c a =>
       match a with
       | Auth => c
       | Users => on_api a f c
       end)
    _apis (on_api Auth f c).

(** [client.auth.setToken], [client.auth.clearToken],
    [client.auth.setRefreshToken], [client.auth.clearRefreshToken] *)
Definition auth_setToken (token : string) : t -> t := linked (set_token (Some token)).
Definition auth_clearToken : t -> t := linked (set_token None).
Definition auth_setRefreshToken (token : string) : t -> t :=
  linked (set_refreshToken (Some token)).
Definition auth_clearRefreshToken : t -> t := linked (set_refreshToken None).

(** The methods of [UsersAPI] are not replaced:
    [client.users.setToken] and the like act on [users] alone. *)
Definition users_setToken (token : string) : t -> t := on_api Users (set_token (Some token)).
Definition users_clearToken : t -> t := on_api Users (set_token None).

(** The methods of the client itself, which call those of [auth]. *)
Definition setToken (token : string) : t -> t := auth_setToken token.
Definition clearToken : t -> t := auth_clearToken.
Definition getToken (c : t) : option string := BaseClient.token (auth c).
Definition setRefreshToken (token : string) : t -> t := auth_setRefreshToken token.
Definition clearRefreshToken : t -> t := auth_clearRefreshToken.
Definition getRefreshToken (c : t) : option string := BaseClient.refreshToken (auth c).

(** The client in its surroundings: as [State], with the two API objects
    in place of the one. *)
Record World := {
  clients : t;
  w_env : Env;
  w_network : nat -> Outcome;
  w_clock : nat -> string;
  w_trace : list Event
}.

(** The state seen by a method running on API object [a]. *)
Definition focus (a : Api) (w : World) : State :=
  {| this := api a (clients w); env := w_env w; network := w_network w;
     clock := w_clock w; trace := w_trace w |}.

Definition unfocus (a : Api) (w : World) (st : State) : World :=
  {| clients := on_api a (fun _ => this st) (clients w); w_env := env st;
     w_network := network st; w_clock := clock st; w_trace := trace st |}.

(** Run a method of [BaseClient] on API object [a]. *)
Definition on {A} (a : Api) (m : Async A) (w : World) : Result A * World :=
  let '(r, st) := m (focus a w) in (r, unfocus a w st).

Definition with_clients (c : t) (w : World) : World :=
  {| clients := c; w_env := w_env w; w_network := w_network w;
     w_clock := w_clock w; w_trace := w_trace w |}.

(** [client.auth.logout(data)]: inside it [this.clearToken()] and
    [this.clearRefreshToken()] are the replaced methods. *)
Definition auth_logout (data : value) (w : World) : Result value * World :=
  match on Auth (post "/auth/logout" data None) w with
  | (Return response, w1) =>
      (Return response,
       with_clients (auth_clearRefreshToken (auth_clearToken (clients w1))) w1)
  | (Throw e, w1) => (Throw e, w1)
  end.

(** [client.auth.login(credentials)]: inside it [this.setToken] is the
    replaced method.  Undefined where [as_token] is. *)
Definition auth_login (credentials : value) (w : World) : option (Result value * World) :=
  match on Auth (post "/auth/login" credentials None) w with
  | (Return data, w1) =>
      match member "access_token" data with
      | Throw e => Some (Throw e, w1)
      | Return v =>
          match as_token v with
          | Some tok =>
              Some (Return data, with_clients (linked (set_token tok) (clients w1)) w1)
          | None => None
          end
      end
  | (Throw e, w1) => Some (Throw e, w1)
  end.

End RendevoClient.

(** ** The factories of the test helpers *)

(** [a ?? b] *)
Definition nullish_or {A} (a : option A) (b : A) : A :=
  match a with
  | Some x => x
  | None => b
  end.

Module UserFactoryOptions.
(** [emailVerifiedAt?: string | null]: absent, [null], or a string. *)
Record t := {
  id : option string;
  email : option string;
  firstName : option string;
  lastName : option string;
  role : option string;
  isActive : option bool;
  emailVerifiedAt : option (option string);
  createdAt : option string;
  updatedAt : option string
}.

(** [{}] *)
Definition empty : t :=
  {| id := None; email := None; firstName := None; lastName := None;
     role := None; isActive := None; emailVerifiedAt := None;
     createdAt := None; updatedAt := None |}.
End UserFactoryOptions.

Module AuthResponseFactoryOptions.
Record t := {
  token : option string;
  refreshToken : option string;
  user : option UserFactoryOptions.t
}.
End AuthResponseFactoryOptions.

Definition createMockUser (options : UserFactoryOptions.t) : value :=
  VObj [ ("id", VStr (nullish_or (UserFactoryOptions.id options) "1"));
         ("email", VStr (nullish_or (UserFactoryOptions.email options) "test@example.com"));
         ("firstName", VStr (nullish_or (UserFactoryOptions.firstName options) "John"));
         ("lastName", VStr (nullish_or (UserFactoryOptions.lastName options) "Doe"));
         ("role", VStr (nullish_or (UserFactoryOptions.role options) "USER"));
         ("isActive", VBool (nullish_or (UserFactoryOptions.isActive options) true));
         ("emailVerifiedAt",
          match UserFactoryOptions.emailVerifiedAt options with
          | Some (Some s) => VStr s
          | Some None | None => VNull
          end);
         ("createdAt",
          VStr (nullish_or (UserFactoryOptions.createdAt options)
                  "2025-01-01T00:00:00.000Z"));
         ("updatedAt",
          VStr (nullish_or (UserFactoryOptions.updatedAt options)
                  "2025-01-01T00:00:00.000Z")) ].

(** [createMockUser({...options, role: 'ADMIN', email: options.email ??
    'admin@example.com'})] *)
Definition createMockAdminUser (options : UserFactoryOptions.t) : value :=
  createMockUser
    {| UserFactoryOptions.id := UserFactoryOptions.id options;
       UserFactoryOptions.email :=
         Some (nullish_or (UserFactoryOptions.email options) "admin@example.com");
       UserFactoryOptions.firstName := UserFactoryOptions.firstName options;
       UserFactoryOptions.lastName := UserFactoryOptions.lastName options;
       UserFactoryOptions.role := Some "ADMIN";
       UserFactoryOptions.isActive := UserFactoryOptions.isActive options;
       UserFactoryOptions.emailVerifiedAt := UserFactoryOptions.emailVerifiedAt options;
       UserFactoryOptions.createdAt := UserFactoryOptions.createdAt options;
       UserFactoryOptions.updatedAt := UserFactoryOptions.updatedAt options |}.

(** [createMockUser(options.user)]: an absent argument takes the default
    [{}]. *)
Definition createMockAuthResponse (options : AuthResponseFactoryOptions.t) : value :=
  VObj [ ("access_token",
          VStr (nullish_or (AuthResponseFactoryOptions.token options)
                  "mock-jwt-token-abc123"));
         ("refresh_token",
          VStr (nullish_or (AuthResponseFactoryOptions.token options)
                  "mock-refresh-token-def456"));
         ("user",
          createMockUser
            (nullish_or (AuthResponseFactoryOptions.user options)
               UserFactoryOptions.empty)) ].

(** [createMockApiResponse(data)]; [timestamp] is what
    [new Date().toISOString()] gives when it is called. *)
Definition createMockApiResponse (data : value) (timestamp : string) : value :=
  VObj [ ("success", VBool true);
         ("data", data);
         ("timestamp", VStr timestamp) ].

(** [createMockApiErrorResponse(statusCode, message, path = '/test',
    method = 'GET')] *)
Definition createMockApiErrorResponse (statusCode : number) (message : string)
    (path method : option string) (timestamp : string) : value :=
  VObj [ ("success", VBool false);
         ("statusCode", VNum statusCode);
         ("message", VStr message);
         ("timestamp", VStr timestamp);
         ("path", VStr (nullish_or path "/test"));
         ("method", VStr (nullish_or method "GET")) ].

(** * Vocabulary of the properties *)

(** ** Runs *)

(** How the next call of [fetch] will settle. *)
Definition next_outcome (st : State) : Outcome := network st (fetch_count (trace st)).

(** The calls of [fetch] made by running [m] from [st]. *)
Definition calls_made {A} (m : Async A) (st : State) : list FetchCall.t :=
  skipn (length (calls (trace st))) (calls (trace (snd (m st)))).

(** The delay awaited after failed attempt [n] (counted from 0). *)
Definition backoff (n : nat) : Z := 2 ^ Z.of_nat n * 1000.


(** ** The five verb methods *)

Inductive Verb :=
| GET
| POST (body : value)
| PATCH (body : value)
| PUT (body : value)
| DELETE.

(** A call of the verb method: [get], [post], [patch], [put] or [delete]. *)
Definition call (verb : Verb) (endpoint : string)
    (options : option RequestOptions.t) : Async value :=
  match verb with
  | GET => get endpoint options
  | POST body => post endpoint body options
  | PATCH body => patch endpoint body options
  | PUT body => put endpoint body options
  | DELETE => delete endpoint options
  end.

(** The argument the verb method passes to [request]. *)
Definition init_of (verb : Verb) (options : option RequestOptions.t) : RequestInit.t :=
  match verb with
  | GET => init "GET" None options
  | POST body => init "POST" (body_text body) options
  | PATCH body => init "PATCH" (body_text body) options
  | PUT body => init "PUT" (body_text body) options
  | DELETE => init "DELETE" None options
  end.

(** [options.method || 'GET']: the method recorded in a synthesized
    payload; [fetch] also sends [GET] when no method is given. *)
Definition request_method (options : RequestInit.t) : string :=
  string_or (RequestInit.method options) "GET".



(** ** Responses and errors *)

(** The next response is a 2xx JSON response whose parsed body is [data]. *)
Definition json_2xx (st : State) (r : Response.t) (data : value) : Prop :=
  next_outcome st = Resolves r /\
  Response.ok r = true /\
  content_type_is_json (Response.content_type r) = true /\
  Response.json r = Response.Parsed data.


(** The envelope as the specification words it: an object with the keys
    [success], [data] and [timestamp].  The method itself tests
    [envelope_shaped], which does not look at [timestamp]. *)
Definition named_envelope (data : value) : bool :=
  is_object data && has_key "success" data && has_key "data" data &&
  has_key "timestamp" data.

(** The message for a content type that is not JSON. *)
Definition invalid_format (shown : string) : string :=
  "Invalid response format: expected JSON but got " +:+ shown.

(** The test [isRetryableError] makes on the message of a generic error. *)
Definition has_network_marker (message : string) : bool :=
  includes "Network error" message ||
  includes "fetch failed" message ||
  includes "ECONNREFUSED" message.

(** ** Headers and addresses *)

Definition authorization (call : FetchCall.t) : option string :=
  FetchCall.headers call !! "Authorization".

(** The headers before the token is looked at:
    [{...this.defaultHeaders, ...options.headers}]. *)
Definition supplied_headers (self : BaseClient.t) (options : RequestInit.t) : Headers :=
  default ∅ (RequestInit.headers options) ∪ BaseClient.defaultHeaders self.

(** The last character of [s] is a slash. *)
Fixpoint ends_with_slash (s : string) : bool :=
  match s with
  | EmptyString => false
  | String c EmptyString => Ascii.eqb c "/"
  | String _ rest => ends_with_slash rest
  end.

(** ** Sample clients, environments and responses *)

Module Sample.

Definition config : ClientConfig.t :=
  {| ClientConfig.baseURL := "http://localhost:3000/api/";
     ClientConfig.timeout := Some (Int 30000);
     ClientConfig.headers := None |}.

Definition production : Env :=
  {| NODE_ENV := Some "production"; VITEST := None; vitest_defined := false |}.

Definition vitest : Env :=
  {| NODE_ENV := Some "test"; VITEST := Some "true"; vitest_defined := true |}.

(** A fresh client in environment [e], facing network [net]. *)
Definition world (e : Env) (net : nat -> Outcome) : State :=
  {| this := constructor config;
     env := e;
     network := net;
     clock := fun _ => "2024-01-01T00:00:00.000Z";
     trace := [] |}.

Definition json_response (status : Z) (data : value) : Response.t :=
  {| Response.status := status;
     Response.content_type := Some "application/json";
     Response.json := Response.Parsed data |}.

(** A response with another content type, such as a proxy's HTML page. *)
Definition other_response (status : Z) (content_type : option string) : Response.t :=
  {| Response.status := status;
     Response.content_type := content_type;
     Response.json :=
       Response.Unparsable "SyntaxError" "Unexpected token < in JSON at position 0" |}.

(** The network on which every [fetch] resolves with [r]. *)
Definition always (r : Response.t) : nat -> Outcome := fun _ => Resolves r.

Definition user : value :=
  VObj [("id", VStr "1"); ("email", VStr "test@example.com")].

End Sample.

(** The body [{success: true, data: {id, email}}]: no [timestamp]. *)
Definition bare_envelope : value :=
  VObj [("success", VBool true); ("data", Sample.user)].

(** The body [{success: true, data: {id, email}, timestamp}]. *)
Definition full_envelope : value :=
  VObj [("success", VBool true); ("data", Sample.user);
        ("timestamp", VStr "2024-01-01T00:00:00.000Z")].

(** Status 503; the body is the plain string [Service Unavailable]. *)
Definition unavailable : Response.t :=
  Sample.json_response 503 (VStr "Service Unavailable").

(** Status 404; the body is the mock error of the test suite. *)
Definition not_found : Response.t :=
  Sample.json_response 404
    (VObj [("success", VBool false); ("statusCode", VNum (Int 404));
           ("timestamp", VStr "2024-01-01T00:00:00.000Z");
           ("path", VStr "/users/42"); ("method", VStr "GET");
           ("message", VStr "User not found")]).

(** Status 200; the body has the keys of an error payload. *)
Definition error_shaped_200 : Response.t :=
  Sample.json_response 200
    (VObj [("statusCode", VNum (Int 500)); ("message", VStr "Internal error")]).

(** The network on which every [fetch] is aborted by the timeout timer. *)
Definition timing_out : nat -> Outcome :=
  fun _ => RejectsError "AbortError" "This operation was aborted".

(** ** Statements as they are worded

    Each is refuted below at a sample input. *)

(** C1 as it is stated: the inner [data] for a body with the three keys,
    the raw body for every other body. *)
Definition unwrap_as_stated (verb : Verb) (endpoint : string)
    (options : option RequestOptions.t) (st : State) (r : Response.t)
    (data : value) : Prop :=
  json_2xx st r data ->
  fst (call verb endpoint options st) =
    Return (if named_envelope data then prop "data" data else data).



(** C6 as it is stated, for a response that is not JSON: the error thrown
    names the content type that was observed, or [unknown] when there is
    none. *)
Definition non_json_as_stated (endpoint : string) (options : RequestInit.t)
    (st : State) (r : Response.t) : Prop :=
  next_outcome st = Resolves r ->
  content_type_is_json (Response.content_type r) = false ->
  fst (executeRequest endpoint options st) =
    Throw (new_Error (invalid_format
                        match Response.content_type r with
                        | Some ct => ct
                        | None => "unknown"
                        end)).

(** C8 as it is stated: after [setToken t], every [fetch] of a request
    carries [Authorization: Bearer t]. *)
Definition bearer_as_stated (t endpoint : string) (options : RequestInit.t)
    (st : State) : Prop :=
  calls_made (setToken t ;; request endpoint options) st <> [] /\
  Forall (fun c => authorization c = Some ("Bearer " +:+ t))
    (calls_made (setToken t ;; request endpoint options) st).


(** ** Vocabulary of the further properties *)

(** The effects performed by running [m] from [st]. *)
Definition events_made {A} (m : Async A) (st : State) : list Event :=
  skipn (length (trace st)) (trace (snd (m st))).

(** The discipline of the timeout timer, checked along a trace: no timer
    is armed while one is armed already, [fetch] is called only under an
    armed timer, [response.json()] and the back-off delays happen only
    when no timer is armed.  The result is whether a timer is armed at
    the end, or [None] when the discipline is broken. *)
Fixpoint timer_scan (armed : bool) (tr : list Event) : option bool :=
  match tr with
  | [] => Some armed
  | EvSetTimeout _ :: rest => if armed then None else timer_scan true rest
  | EvClearTimeout :: rest => timer_scan false rest
  | EvFetch _ :: rest => if armed then timer_scan armed rest else None
  | EvJson :: rest => if armed then None else timer_scan armed rest
  | EvDelay _ :: rest => if armed then None else timer_scan armed rest
  end.

(** The method a verb method sends, and the body text it sends. *)
Definition verb_name (verb : Verb) : string :=
  match verb with
  | GET => "GET"
  | POST _ => "POST"
  | PATCH _ => "PATCH"
  | PUT _ => "PUT"
  | DELETE => "DELETE"
  end.

Definition verb_body (verb : Verb) : option string :=
  match verb with
  | POST body | PATCH body | PUT body => body_text body
  | GET | DELETE => None
  end.

(** The error thrown for an aborted [fetch]. *)
Definition timeout_message (endpoint : string) (ms : number) : string :=
  "Request timeout: The request to " +:+ endpoint +:+ " took longer than " +:+
  number_to_string ms +:+ "ms".

(** The error thrown for a [fetch] that failed on CORS or on the network. *)
Definition network_message (baseURL : string) : string :=
  "Network error: Unable to reach " +:+ baseURL +:+
  ". This may be due to CORS policy or network connectivity issues.".

(** The network on which every [fetch] settles in the same way. *)
Definition persistent (o : Outcome) : nat -> Outcome := fun _ => o.

(** The access token and the refresh token of a client. *)
Definition tokens (c : BaseClient.t) : option string * option string :=
  (BaseClient.token c, BaseClient.refreshToken c).

(** The two API objects of a client hold the same tokens. *)
Definition in_sync (c : RendevoClient.t) : Prop :=
  tokens (RendevoClient.auth c) = tokens (RendevoClient.users c).

(** A fresh [RendevoClient] in environment [e], facing network [net]. *)
Definition facade_world (config : ClientConfig.t) (e : Env) (net : nat -> Outcome) :
    RendevoClient.World :=
  {| RendevoClient.clients := RendevoClient.constructor config;
     RendevoClient.w_env := e;
     RendevoClient.w_network := net;
     RendevoClient.w_clock := fun _ => "2024-01-01T00:00:00.000Z";
     RendevoClient.w_trace := [] |}.

(** The [Authorization] value the token of a client gives rise to:
    [if (this.token) headers.Authorization = `Bearer ${this.token}`]. *)
Definition bearer (self : BaseClient.t) : option string :=
  match BaseClient.token self with
  | Some token => if string_truthy token then Some ("Bearer " +:+ token) else None
  | None => None
  end.



(** The response of the test suite to a login: status 200, the body made
    by [createMockAuthResponse()]. *)
Definition login_response : Response.t :=
  Sample.json_response 200
    (createMockAuthResponse
       {| AuthResponseFactoryOptions.token := None;
          AuthResponseFactoryOptions.refreshToken := None;
          AuthResponseFactoryOptions.user := None |}).

(** [MOCK_CREDENTIALS.valid] *)
Definition credentials : value :=
  VObj [("email", VStr "user@example.com"); ("password", VStr "Password123!")].

(** What a method sends: every [fetch] call it makes has this method, path
    (after the base address) and body, and there is at least one. *)
Definition sends (m : Async value) (st : State) (method path : string)
    (body : option string) : Prop :=
  calls_made m st <> [] /\
  Forall
    (fun c =>
       FetchCall.method c = Some method /\
       FetchCall.url c = BaseClient.baseURL (this st) +:+ path /\
       FetchCall.body c = body)
    (calls_made m st).

(** * Properties *)

(** ** Traces *)

Lemma calls_app (tr1 tr2 : list Event) : calls (tr1 ++ tr2) = calls tr1 ++ calls tr2.
Proof.
  induction tr1 as [|e tr1 IH]; simpl; [reflexivity|].
  destruct e; simpl; rewrite IH; reflexivity.
Qed.

Lemma delays_app (tr1 tr2 : list Event) : delays (tr1 ++ tr2) = delays tr1 ++ delays tr2.
Proof.
  induction tr1 as [|e tr1 IH]; simpl; [reflexivity|].
  destruct e; simpl; rewrite IH; reflexivity.
Qed.

Lemma fetch_count_app (tr1 tr2 : list Event) :
  fetch_count (tr1 ++ tr2) = (fetch_count tr1 + fetch_count tr2)%nat.
Proof. unfold fetch_count. rewrite calls_app, length_app. reflexivity. Qed.

Lemma fetch_count_timer (tr : list Event) (ms : number) :
  fetch_count (tr ++ [EvSetTimeout ms]) = fetch_count tr.
Proof. rewrite fetch_count_app. unfold fetch_count. simpl. lia. Qed.

(** ** One attempt

    The next outcome of the network decides what [executeRequest] does;
    one lemma per path through the method. *)

Ltac run_attempt :=
  unfold next_outcome in *;
  repeat progress
    (unfold executeRequest, bind, try_catch, read_this, emit, fetch, response_json,
       toISOString, throw, ret;
     simpl; rewrite ?fetch_count_timer).

Ltac tidy_trace := unfold with_trace; simpl; rewrite <- ?app_assoc; simpl.

Section Attempt.
Variables (endpoint : string) (options : RequestInit.t) (st : State).

Let self := this st.
Let opening : list Event :=
  [EvSetTimeout (timeout_ms self options); EvFetch (fetch_call self endpoint options)].

Lemma attempt_rejected (name message : string) :
  next_outcome st = RejectsError name message ->
  executeRequest endpoint options st =
    (Throw (rethrown self endpoint options (Error name message)),
     with_trace (trace st ++ opening ++ [EvClearTimeout]) st).
Proof.
  intros H. run_attempt. rewrite H. tidy_trace. reflexivity.
Qed.

Lemma attempt_rejected_other :
  next_outcome st = RejectsOther ->
  executeRequest endpoint options st =
    (Throw (new_Error "An unexpected error occurred"),
     with_trace (trace st ++ opening ++ [EvClearTimeout]) st).
Proof.
  intros H. run_attempt. rewrite H. tidy_trace. reflexivity.
Qed.

Lemma attempt_not_json (r : Response.t) :
  next_outcome st = Resolves r ->
  content_type_is_json (Response.content_type r) = false ->
  executeRequest endpoint options st =
    (Throw (rethrown self endpoint options
              (new_Error ("Invalid response format: expected JSON but got " +:+
                          string_or (Response.content_type r) "unknown"))),
     with_trace (trace st ++ opening ++ [EvClearTimeout; EvClearTimeout]) st).
Proof.
  intros H Hct. run_attempt. rewrite H. simpl. rewrite Hct. run_attempt. tidy_trace.
  reflexivity.
Qed.

Lemma attempt_unparsable (r : Response.t) (name message : string) :
  next_outcome st = Resolves r ->
  content_type_is_json (Response.content_type r) = true ->
  Response.json r = Response.Unparsable name message ->
  executeRequest endpoint options st =
    (Throw (rethrown self endpoint options (Error name message)),
     with_trace (trace st ++ opening ++ [EvClearTimeout; EvJson; EvClearTimeout]) st).
Proof.
  intros H Hct Hj. run_attempt. rewrite H. simpl. rewrite Hct. run_attempt.
  rewrite Hj. tidy_trace. reflexivity.
Qed.

Lemma attempt_api_error (r : Response.t) (data : value) :
  next_outcome st = Resolves r ->
  content_type_is_json (Response.content_type r) = true ->
  Response.json r = Response.Parsed data ->
  Response.ok r = false ->
  exists timestamp,
    executeRequest endpoint options st =
      (Throw (RendevoAPIError (Response.status r)
                (if error_shaped data then data
                 else synthesized_payload (Response.status r) timestamp
                        endpoint options data)),
       with_trace (trace st ++ opening ++ [EvClearTimeout; EvJson; EvClearTimeout]) st).
Proof.
  intros H Hct Hj Hok. run_attempt. rewrite H. simpl. rewrite Hct. run_attempt.
  rewrite Hj, Hok. simpl.
  destruct (error_shaped data); simpl;
    [exists EmptyString | eexists]; tidy_trace; reflexivity.
Qed.

Lemma attempt_success (r : Response.t) (data : value) :
  next_outcome st = Resolves r ->
  content_type_is_json (Response.content_type r) = true ->
  Response.json r = Response.Parsed data ->
  Response.ok r = true ->
  exists timestamp,
    executeRequest endpoint options st =
      (Return (if envelope_shaped data then data else wrapped data timestamp),
       with_trace (trace st ++ opening ++ [EvClearTimeout; EvJson]) st).
Proof.
  intros H Hct Hj Hok. run_attempt. rewrite H. simpl. rewrite Hct. run_attempt.
  rewrite Hj, Hok. simpl.
  destruct (envelope_shaped data); simpl;
    [exists EmptyString | eexists]; tidy_trace; reflexivity.
Qed.

End Attempt.

(** Whatever the network does, an attempt changes nothing but the trace,
    calls [fetch] exactly once, with the merged headers, and never waits. *)
Lemma attempt_frame (endpoint : string) (options : RequestInit.t) (st : State) :
  exists r evs,
    executeRequest endpoint options st = (r, with_trace (trace st ++ evs) st) /\
    calls evs = [fetch_call (this st) endpoint options] /\
    delays evs = [].
Proof.
  destruct (next_outcome st) as [r|name message|] eqn:H.
  - destruct (content_type_is_json (Response.content_type r)) eqn:Hct.
    + destruct (Response.json r) as [data|name message] eqn:Hj.
      * destruct (Response.ok r) eqn:Hok.
        -- destruct (attempt_success endpoint options st r data H Hct Hj Hok) as [ts E].
           rewrite E. eexists _, _. repeat split.
        -- destruct (attempt_api_error endpoint options st r data H Hct Hj Hok) as [ts E].
           rewrite E. eexists _, _. repeat split.
      * rewrite (attempt_unparsable endpoint options st r name message H Hct Hj).
        eexists _, _. repeat split.
    + rewrite (attempt_not_json endpoint options st r H Hct).
      eexists _, _. repeat split.
  - rewrite (attempt_rejected endpoint options st name message H).
    eexists _, _. repeat split.
  - rewrite (attempt_rejected_other endpoint options st H).
    eexists _, _. repeat split.
Qed.

(** ** The retry loop, one iteration at a time *)

Section Loop.
Variables (endpoint : string) (options : RequestInit.t).
Variables (remaining attempt : nat) (lastError : option Thrown).

Lemma loop_return (st st1 : State) (v : value) :
  executeRequest endpoint options st = (Return v, st1) ->
  request_loop (S remaining) attempt lastError endpoint options st = (Return v, st1).
Proof. intros E. simpl. unfold try_catch. rewrite E. reflexivity. Qed.

Lemma loop_stop (st st1 : State) (e : Thrown) :
  executeRequest endpoint options st = (Throw e, st1) ->
  attempt = 2%nat \/ isRetryableError e = false ->
  request_loop (S remaining) attempt lastError endpoint options st = (Throw e, st1).
Proof.
  intros E Hstop. simpl. unfold try_catch. rewrite E.
  destruct Hstop as [-> | ->]; simpl; [reflexivity|].
  rewrite orb_true_r. reflexivity.
Qed.

Lemma loop_retry (st st1 : State) (e : Thrown) :
  executeRequest endpoint options st = (Throw e, st1) ->
  (attempt < 2)%nat ->
  isRetryableError e = true ->
  request_loop (S remaining) attempt lastError endpoint options st =
    request_loop remaining (S attempt) (Some e) endpoint options
      (with_trace (trace st1 ++ [EvDelay (2 ^ Z.of_nat attempt * 1000)]) st1).
Proof.
  intros E Hlt Hretry. simpl. unfold try_catch. rewrite E, Hretry.
  destruct (Nat.eqb_spec attempt 2) as [->|_]; [lia|].
  reflexivity.
Qed.

End Loop.

(** ** What every run of [request] does

    The client object, the environment and the network are left as they
    were; between one and three identical [fetch] calls are made; after
    attempt [n] of the loop fails and is retried, [backoff n] is awaited. *)

Lemma loop_frame (endpoint : string) (options : RequestInit.t) (remaining : nat) :
  forall (attempt : nat) (lastError : option Thrown) (st : State),
    (remaining + attempt = maxRetries)%nat ->
    exists r evs k,
      request_loop remaining attempt lastError endpoint options st =
        (r, with_trace (trace st ++ evs) st) /\
      calls evs = repeat (fetch_call (this st) endpoint options) k /\
      (k <= remaining)%nat /\
      (0 < remaining -> 0 < k)%nat /\
      delays evs = List.map backoff (seq attempt (k - 1)).
Proof.
  induction remaining as [|remaining IH]; intros attempt lastError st Hsum.
  - exists (Throw (match lastError with
                   | Some e => e
                   | None => new_Error "Request failed after retries"
                   end)), [], 0%nat.
    simpl. unfold throw, with_trace. rewrite app_nil_r.
    destruct st; simpl. repeat split; lia.
  - destruct (attempt_frame endpoint options st) as (r1 & evs1 & E1 & Hcalls1 & Hdelays1).
    destruct r1 as [v|e].
    + exists (Return v), evs1, 1%nat.
      rewrite (loop_return _ _ _ _ _ _ _ _ E1), Hcalls1, Hdelays1.
      repeat split; lia.
    + destruct (isRetryableError e) eqn:Hretry.
      * destruct (Nat.eq_dec attempt 2%nat) as [Hlast|Hmore].
        -- exists (Throw e), evs1, 1%nat.
           rewrite (loop_stop _ _ _ _ _ _ _ _ E1 (or_introl Hlast)), Hcalls1, Hdelays1.
           repeat split; lia.
        -- assert (Hlt : (attempt < 2)%nat) by (unfold maxRetries in Hsum; lia).
           rewrite (loop_retry _ _ _ _ _ _ _ _ E1 Hlt Hretry).
           set (st2 := with_trace _ _).
           destruct (IH (S attempt) (Some e) st2) as (r & evs2 & k & E2 & Hcalls2 & Hle & Hpos & Hdelays2);
             [lia|].
           exists r, (evs1 ++ [EvDelay (backoff attempt)] ++ evs2), (S k).
           rewrite E2. subst st2. simpl.
           rewrite !calls_app, !delays_app, Hcalls1, Hdelays1. simpl.
           simpl in Hcalls2. rewrite Hcalls2, Hdelays2.
           assert (0 < k)%nat by (apply Hpos; unfold maxRetries in Hsum; lia).
           repeat split; try lia.
           ++ unfold with_trace. simpl. rewrite <- !app_assoc. reflexivity.
           ++ rewrite Nat.sub_0_r. destruct k as [|k]; [lia|].
              simpl. rewrite Nat.sub_0_r. reflexivity.
      * exists (Throw e), evs1, 1%nat.
        rewrite (loop_stop _ _ _ _ _ _ _ _ E1 (or_intror Hretry)), Hcalls1, Hdelays1.
        repeat split; lia.
Qed.

Lemma request_unfold (endpoint : string) (options : RequestInit.t) (st : State) :
  request endpoint options st =
    if isTestEnv (env st) then executeRequest endpoint options st
    else request_loop maxRetries 0 None endpoint options st.
Proof.
  unfold request, bind, read_env. destruct (isTestEnv (env st)); reflexivity.
Qed.

Lemma request_frame (endpoint : string) (options : RequestInit.t) (st : State) :
  exists r evs k,
    request endpoint options st = (r, with_trace (trace st ++ evs) st) /\
    calls evs = repeat (fetch_call (this st) endpoint options) k /\
    (1 <= k <= 3)%nat /\
    (isTestEnv (env st) = true -> k = 1%nat) /\
    delays evs = List.map backoff (seq 0 (k - 1)).
Proof.
  rewrite request_unfold.
  destruct (isTestEnv (env st)) eqn:Htest.
  - destruct (attempt_frame endpoint options st) as (r & evs & E & Hcalls & Hdelays).
    exists r, evs, 1%nat. rewrite E, Hcalls, Hdelays. repeat split; lia.
  - destruct (loop_frame endpoint options maxRetries 0 None st eq_refl)
      as (r & evs & k & E & Hcalls & Hle & Hpos & Hdelays).
    exists r, evs, k. rewrite E. unfold maxRetries in *.
    assert (0 < k)%nat by (apply Hpos; lia).
    repeat split; try assumption; try lia; try discriminate.
Qed.

Lemma request_return (endpoint : string) (options : RequestInit.t)
    (st st1 : State) (v : value) :
  executeRequest endpoint options st = (Return v, st1) ->
  request endpoint options st = (Return v, st1).
Proof.
  intros E. rewrite request_unfold. destruct (isTestEnv (env st)); [exact E|].
  apply loop_return. exact E.
Qed.

Lemma request_not_retryable (endpoint : string) (options : RequestInit.t)
    (st st1 : State) (e : Thrown) :
  executeRequest endpoint options st = (Throw e, st1) ->
  isRetryableError e = false ->
  request endpoint options st = (Throw e, st1).
Proof.
  intros E Hno. rewrite request_unfold. destruct (isTestEnv (env st)); [exact E|].
  apply loop_stop; [exact E | right; exact Hno].
Qed.

Lemma request_test_env (endpoint : string) (options : RequestInit.t) (st : State) :
  isTestEnv (env st) = true ->
  request endpoint options st = executeRequest endpoint options st.
Proof. intros H. rewrite request_unfold, H. reflexivity. Qed.

(** ** The five verb methods *)

Lemma call_unfold (verb : Verb) (endpoint : string)
    (options : option RequestOptions.t) (st : State) :
  call verb endpoint options st =
    match request endpoint (init_of verb options) st with
    | (Return response, st') => (Return (prop "data" response), st')
    | (Throw e, st') => (Throw e, st')
    end.
Proof. destruct verb; reflexivity. Qed.

(** ** Successful responses: the envelope is unwrapped *)

Lemma named_envelope_shaped (data : value) :
  named_envelope data = true -> envelope_shaped data = true.
Proof.
  unfold named_envelope, envelope_shaped.
  destruct (is_object data), (has_key "success" data), (has_key "data" data);
    simpl; auto; discriminate.
Qed.

(** C1, counterexample.  A 200 JSON response whose body has [success] and
    [data] but no [timestamp] is not the three-key envelope, yet [get]
    returns its inner [data] and not the raw body. *)
Lemma unwrap_counterexample :
  named_envelope bare_envelope = false /\
  fst (get "/users/me" None
         (Sample.world Sample.production
            (Sample.always (Sample.json_response 200 bare_envelope)))) =
    Return Sample.user /\
  ~ unwrap_as_stated GET "/users/me" None
      (Sample.world Sample.production
         (Sample.always (Sample.json_response 200 bare_envelope)))
      (Sample.json_response 200 bare_envelope) bare_envelope.
Proof.
  split; [reflexivity|]. split; [vm_compute; reflexivity|].
  intros H.
  assert (E : fst (call GET "/users/me" None
                     (Sample.world Sample.production
                        (Sample.always (Sample.json_response 200 bare_envelope)))) =
              Return bare_envelope).
  { apply H. repeat split. }
  vm_compute in E. discriminate E.
Qed.

(** C1 (amended).  For every 2xx JSON response, each verb method returns
    the value under [data] when the parsed body is an object that has the
    keys [data] and [success] ([timestamp] is not examined), and the raw
    parsed body otherwise; in particular a body with all three keys
    [success], [data], [timestamp] yields its inner [data].  A body that
    is returned raw was first wrapped by [request] as
    [{success: true, data: body, timestamp: now}]. *)
Theorem unwrap_envelope (verb : Verb) (endpoint : string)
    (options : option RequestOptions.t) (st : State) (r : Response.t)
    (data : value) :
  json_2xx st r data ->
  fst (call verb endpoint options st) =
    Return (if envelope_shaped data then prop "data" data else data) /\
  (named_envelope data = true ->
   fst (call verb endpoint options st) = Return (prop "data" data)) /\
  (envelope_shaped data = false ->
   exists timestamp,
     fst (request endpoint (init_of verb options) st) =
       Return (wrapped data timestamp) /\
     prop "data" (wrapped data timestamp) = data).
Proof.
  intros (Hnext & Hok & Hct & Hjson).
  destruct (attempt_success endpoint (init_of verb options) st r data
              Hnext Hct Hjson Hok) as [timestamp E].
  apply request_return in E.
  assert (E' : fst (call verb endpoint options st) =
               Return (if envelope_shaped data then prop "data" data else data)).
  { rewrite call_unfold, E. destruct (envelope_shaped data); reflexivity. }
  split; [exact E'|]. split.
  - intros Hnamed. rewrite E', (named_envelope_shaped _ Hnamed). reflexivity.
  - intros Hraw. exists timestamp. rewrite E, Hraw. split; reflexivity.
Qed.

Lemma unwrap_envelope_witness :
  json_2xx
    (Sample.world Sample.production
       (Sample.always (Sample.json_response 200 full_envelope)))
    (Sample.json_response 200 full_envelope) full_envelope /\
  named_envelope full_envelope = true /\
  fst (call (POST (VObj [("email", VStr "test@example.com")])) "/auth/login" None
         (Sample.world Sample.production
            (Sample.always (Sample.json_response 200 full_envelope)))) =
    Return Sample.user.
Proof.
  split; [repeat split|]. split; [reflexivity|].
  refine (proj1 (unwrap_envelope (POST (VObj [("email", VStr "test@example.com")]))
                   "/auth/login" None
                   (Sample.world Sample.production
                      (Sample.always (Sample.json_response 200 full_envelope)))
                   (Sample.json_response 200 full_envelope) full_envelope _)).
  repeat split.
Defined.

(** ** Error responses and the retry policy *)












(** ** The payload of a [RendevoAPIError] *)

Lemma request_method_of_verb (verb : Verb) (options : option RequestOptions.t) :
  request_method (init_of verb options) =
    match verb with
    | GET => "GET"
    | POST _ => "POST"
    | PATCH _ => "PATCH"
    | PUT _ => "PUT"
    | DELETE => "DELETE"
    end.
Proof. destruct verb; reflexivity. Qed.



(** The scenario of the specification: a 404 whose body is
    [{message: "User not found", statusCode: 404, ...}] is thrown with
    that body as payload. *)
Example not_found_error :
  exists st',
    get "/users/42" None (Sample.world Sample.production (Sample.always not_found)) =
      (Throw (RendevoAPIError 404
                (VObj [("success", VBool false); ("statusCode", VNum (Int 404));
                       ("timestamp", VStr "2024-01-01T00:00:00.000Z");
                       ("path", VStr "/users/42"); ("method", VStr "GET");
                       ("message", VStr "User not found")])),
       st').
Proof. eexists. vm_compute. reflexivity. Qed.

(** ** Which errors are retried *)

Lemma generic_retryable (name message : string) :
  isRetryableError (Error name message) = has_network_marker message.
Proof. reflexivity. Qed.

Lemma non_error_not_retryable : isRetryableError NonError = false.
Proof. reflexivity. Qed.

(** A generic error without a marker in its message ends the request at
    once, in test mode or not. *)
Lemma generic_error_propagates (endpoint : string) (options : RequestInit.t)
    (st st1 : State) (name message : string) :
  executeRequest endpoint options st = (Throw (Error name message), st1) ->
  has_network_marker message = false ->
  request endpoint options st = (Throw (Error name message), st1).
Proof. intros E Hno. apply request_not_retryable; assumption. Qed.

(** A rejection with a value that is not an [Error] instance is turned
    into a generic error by the attempt, and the request ends at once. *)
Lemma non_error_propagates (endpoint : string) (options : RequestInit.t) (st : State) :
  next_outcome st = RejectsOther ->
  exists st1,
    request endpoint options st =
      (Throw (new_Error "An unexpected error occurred"), st1) /\
    length (calls (trace st1)) = S (length (calls (trace st))).
Proof.
  intros H. eexists. split.
  - apply request_not_retryable; [apply attempt_rejected_other; exact H | reflexivity].
  - simpl. rewrite calls_app, length_app. simpl. lia.
Qed.

(** A timeout on [/users/42] is thrown after one attempt. *)
Example timeout_not_retried :
  let '(r, st') := get "/users/42" None (Sample.world Sample.production timing_out) in
  r = Throw (new_Error
               "Request timeout: The request to /users/42 took longer than 30000ms") /\
  length (calls (trace st')) = 1%nat /\
  delays (trace st') = [].
Proof. vm_compute. repeat split. Qed.

(** C5, the failing input.  [UsersAPI.getById('ECONNREFUSED')] requests
    the endpoint [/users/ECONNREFUSED].  When the timer aborts every
    [fetch], the message of the timeout error embeds the endpoint and so
    contains the marker [ECONNREFUSED]: outside test mode the timeout is
    retried twice, after 1000 ms and 2000 ms, before it is thrown. *)
Theorem timeout_retried_when_endpoint_has_marker :
  isRetryableError
    (new_Error
       "Request timeout: The request to /users/ECONNREFUSED took longer than 30000ms") =
    true /\
  fst (get "/users/ECONNREFUSED" None (Sample.world Sample.production timing_out)) =
    Throw (new_Error
             "Request timeout: The request to /users/ECONNREFUSED took longer than 30000ms") /\
  length (calls (trace (snd (get "/users/ECONNREFUSED" None
                               (Sample.world Sample.production timing_out))))) = 3%nat /\
  delays (trace (snd (get "/users/ECONNREFUSED" None
                        (Sample.world Sample.production timing_out)))) = [1000; 2000].
Proof. vm_compute. repeat split. Qed.

(** ** Failures that are retried to the end *)

Lemma with_trace_id (st : State) : with_trace (trace st) st = st.
Proof. destruct st; reflexivity. Qed.

(** When every attempt throws a retryable error, the request is given up
    after the third. *)
Lemma retry_exhausted (endpoint : string) (options : RequestInit.t) (st : State)
    (Q : Thrown -> Prop) :
  isTestEnv (env st) = false ->
  (forall tr, exists e,
      fst (executeRequest endpoint options (with_trace tr st)) = Throw e /\
      isRetryableError e = true /\ Q e) ->
  exists e evs,
    request endpoint options st = (Throw e, with_trace (trace st ++ evs) st) /\
    Q e /\
    length (calls evs) = 3%nat /\
    delays evs = [1000; 2000].
Proof.
  intros Htest Hall.
  assert (Hstep : forall tr, exists e evs,
             executeRequest endpoint options (with_trace tr st) =
               (Throw e, with_trace (tr ++ evs) st) /\
             isRetryableError e = true /\ Q e /\
             length (calls evs) = 1%nat /\ delays evs = []).
  { intros tr. destruct (Hall tr) as (e & He & Hretry & HQ).
    destruct (attempt_frame endpoint options (with_trace tr st))
      as (r & evs & E & Hcalls & Hdelays).
    rewrite E in He. simpl in He. subst r.
    exists e, evs. rewrite E, Hcalls. repeat split; assumption. }
  rewrite request_unfold, Htest. unfold maxRetries.
  destruct (Hstep (trace st)) as (e0 & evs0 & E0 & R0 & _ & C0 & D0).
  rewrite with_trace_id in E0.
  rewrite (loop_retry endpoint options 2 0 None _ _ _ E0 ltac:(lia) R0).
  destruct (Hstep ((trace st ++ evs0) ++ [EvDelay (2 ^ Z.of_nat 0 * 1000)]))
    as (e1 & evs1 & E1 & R1 & _ & C1 & D1).
  change (with_trace
            (trace (with_trace (trace st ++ evs0) st) ++ [EvDelay (2 ^ Z.of_nat 0 * 1000)])
            (with_trace (trace st ++ evs0) st))
    with (with_trace ((trace st ++ evs0) ++ [EvDelay (2 ^ Z.of_nat 0 * 1000)]) st).
  rewrite (loop_retry endpoint options 1 1 _ _ _ _ E1 ltac:(lia) R1).
  destruct (Hstep ((((trace st ++ evs0) ++ [EvDelay (2 ^ Z.of_nat 0 * 1000)]) ++ evs1) ++
                   [EvDelay (2 ^ Z.of_nat 1 * 1000)]))
    as (e2 & evs2 & E2 & _ & Q2 & C2 & D2).
  match goal with
  | |- context [request_loop 1%nat 2%nat _ _ _ ?s] =>
      change s with
        (with_trace ((((trace st ++ evs0) ++ [EvDelay (2 ^ Z.of_nat 0 * 1000)]) ++ evs1) ++
                     [EvDelay (2 ^ Z.of_nat 1 * 1000)]) st)
  end.
  rewrite (loop_stop endpoint options 0 2 _ _ _ _ E2 (or_introl eq_refl)).
  exists e2, (evs0 ++ [EvDelay 1000] ++ evs1 ++ [EvDelay 2000] ++ evs2).
  split; [|split; [exact Q2|split]].
  - rewrite <- !app_assoc. reflexivity.
  - rewrite !calls_app, !length_app, C0, C1, C2. reflexivity.
  - rewrite !delays_app, D0, D1, D2. reflexivity.
Qed.

Lemma next_outcome_persistent (st : State) (o : Outcome) (tr : list Event) :
  (forall k, network st k = o) -> next_outcome (with_trace tr st) = o.
Proof. intros H. unfold next_outcome. simpl. apply H. Qed.

(** ** What an attempt yields *)

Lemma invalid_format_cors (shown : string) :
  includes "CORS" (invalid_format shown) = includes "CORS" shown.
Proof. reflexivity. Qed.

Lemma invalid_format_network (shown : string) :
  includes "Network request failed" (invalid_format shown) =
    includes "Network request failed" shown.
Proof. reflexivity. Qed.

(** What every attempt yields.  An attempt either returns an envelope
    (an object with the keys [data] and [success], decoded from a 2xx
    JSON response whose body parsed) or throws an [Error] instance; a
    body that does not parse is thrown as a generic error.  A response
    whose content type does not contain [application/json] causes a
    generic error without any call of [response.json()]; when the
    content type text contains neither [CORS] nor [Network request
    failed], the message of that error names the observed content type,
    or [unknown] when it is absent or empty.  A [RendevoAPIError] is
    thrown only for a non-2xx response, and carries its status. *)
Lemma attempt_yields (endpoint : string) (options : RequestInit.t) (st : State) :
  (* an envelope or an error *)
  match fst (executeRequest endpoint options st) with
  | Return v =>
      envelope_shaped v = true /\
      exists r data,
        next_outcome st = Resolves r /\
        Response.ok r = true /\
        content_type_is_json (Response.content_type r) = true /\
        Response.json r = Response.Parsed data /\
        (v = data \/ exists timestamp, v = wrapped data timestamp)
  | Throw (RendevoAPIError statusCode _) =>
      exists r,
        next_outcome st = Resolves r /\
        Response.ok r = false /\
        statusCode = Response.status r
  | Throw (Error _ _) => True
  | Throw NonError => False
  end /\
  (* a body that does not parse *)
  (forall r name message,
     next_outcome st = Resolves r ->
     content_type_is_json (Response.content_type r) = true ->
     Response.json r = Response.Unparsable name message ->
     exists name' message',
       fst (executeRequest endpoint options st) = Throw (Error name' message')) /\
  (* a content type that is not JSON *)
  (forall r,
     next_outcome st = Resolves r ->
     content_type_is_json (Response.content_type r) = false ->
     exists message evs,
       executeRequest endpoint options st =
         (Throw (new_Error message), with_trace (trace st ++ evs) st) /\
       ~ In EvJson evs /\
       (includes "CORS" (string_or (Response.content_type r) "unknown") = false ->
        includes "Network request failed"
          (string_or (Response.content_type r) "unknown") = false ->
        message = invalid_format (string_or (Response.content_type r) "unknown"))).
Proof.
  split; [|split].
  - destruct (next_outcome st) as [r|name message|] eqn:H.
    + destruct (content_type_is_json (Response.content_type r)) eqn:Hct.
      * destruct (Response.json r) as [data|name message] eqn:Hj.
        -- destruct (Response.ok r) eqn:Hok.
           ++ destruct (attempt_success endpoint options st r data H Hct Hj Hok)
                as [timestamp E].
              rewrite E. simpl. destruct (envelope_shaped data) eqn:Hshape.
              ** split; [exact Hshape|]. exists r, data. auto 10.
              ** split; [reflexivity|]. exists r, data.
                 repeat split; try assumption. right. eexists. reflexivity.
           ++ destruct (attempt_api_error endpoint options st r data H Hct Hj Hok)
                as [timestamp E].
              rewrite E. simpl. exists r. auto.
        -- rewrite (attempt_unparsable endpoint options st r name message H Hct Hj).
           simpl. unfold rethrown.
           destruct (String.eqb name "AbortError"); [exact I|].
           destruct (_ || _); exact I.
      * rewrite (attempt_not_json endpoint options st r H Hct). simpl.
        destruct (_ || _); exact I.
    + rewrite (attempt_rejected endpoint options st name message H).
      simpl. unfold rethrown.
      destruct (String.eqb name "AbortError"); [exact I|].
      destruct (_ || _); exact I.
    + rewrite (attempt_rejected_other endpoint options st H). exact I.
  - intros r name message H Hct Hj.
    rewrite (attempt_unparsable endpoint options st r name message H Hct Hj).
    simpl. unfold rethrown.
    destruct (String.eqb name "AbortError"); [eexists _, _; reflexivity|].
    destruct (_ || _); eexists _, _; reflexivity.
  - intros r H Hct.
    rewrite (attempt_not_json endpoint options st r H Hct).
    fold (invalid_format (string_or (Response.content_type r) "unknown")).
    unfold rethrown, new_Error.
    change (String.eqb "Error" "AbortError") with false. cbv iota.
    rewrite invalid_format_cors, invalid_format_network.
    destruct (includes "CORS" _ || includes "Network request failed" _) eqn:Hany.
    + eexists _, _. split; [reflexivity|]. split.
      * simpl. intuition discriminate.
      * intros H1 H2. rewrite H1, H2 in Hany. discriminate Hany.
    + eexists _, _. split; [reflexivity|]. split.
      * simpl. intuition discriminate.
      * reflexivity.
Qed.

(** A 2xx response is never turned into a [RendevoAPIError], even when
    its body has the keys of an error payload: the body is wrapped and
    returned. *)
Example error_shaped_200_returns :
  fst (get "/users" None
         (Sample.world Sample.production (Sample.always error_shaped_200))) =
    Return (VObj [("statusCode", VNum (Int 500)); ("message", VStr "Internal error")]).
Proof. vm_compute. reflexivity. Qed.

(** What is shown for the content type: [contentType || 'unknown']. *)
Lemma shown_content_type :
  string_or None "unknown" = "unknown" /\
  string_or (Some EmptyString) "unknown" = "unknown" /\
  forall c ct, string_or (Some (String c ct)) "unknown" = String c ct.
Proof. repeat split. Qed.

Example attempt_yields_text_html :
  exists message evs,
    executeRequest "/users" RequestInit.empty
      (Sample.world Sample.production
         (Sample.always (Sample.other_response 200 (Some "text/html")))) =
      (Throw (new_Error message),
       with_trace
         (trace (Sample.world Sample.production
                   (Sample.always (Sample.other_response 200 (Some "text/html")))) ++ evs)
         (Sample.world Sample.production
            (Sample.always (Sample.other_response 200 (Some "text/html"))))) /\
    ~ In EvJson evs /\
    (includes "CORS" "text/html" = false ->
     includes "Network request failed" "text/html" = false ->
     message = "Invalid response format: expected JSON but got text/html").
Proof.
  exact (proj2 (proj2 (attempt_yields "/users" RequestInit.empty
                         (Sample.world Sample.production
                            (Sample.always
                               (Sample.other_response 200 (Some "text/html"))))))
           (Sample.other_response 200 (Some "text/html")) eq_refl eq_refl).
Qed.

Lemma marker_not_empty (ct : string) :
  includes "CORS" ct || includes "Network request failed" ct = true ->
  string_or (Some ct) "unknown" = ct.
Proof. destruct ct; [discriminate | reflexivity]. Qed.

(** C6, the divergence.  The error for a content type that is not JSON
    is thrown inside the [try] block, so the [catch] block of the same
    attempt handles it like a rejected [fetch].  When the content type
    contains [CORS] or [Network request failed], so does the message of
    that error, and [catch] replaces it: the attempt throws the network
    error, which names the base address and not the content type, and
    which is not the error the statement describes.  The body is not
    parsed.  The network error is retryable: outside test mode, while
    the same response keeps arriving, the request is attempted three
    times, 1000 ms and 2000 ms apart, before the error reaches the
    caller. *)
Theorem invalid_format_rewritten (endpoint : string) (options : RequestInit.t)
    (st : State) (r : Response.t) (ct : string) :
  (forall k, network st k = Resolves r) ->
  Response.content_type r = Some ct ->
  includes "application/json" ct = false ->
  includes "CORS" ct || includes "Network request failed" ct = true ->
  (exists evs,
     executeRequest endpoint options st =
       (Throw (new_Error (network_message (BaseClient.baseURL (this st)))),
        with_trace (trace st ++ evs) st) /\
     ~ In EvJson evs) /\
  new_Error (network_message (BaseClient.baseURL (this st))) <>
    new_Error (invalid_format ct) /\
  ~ non_json_as_stated endpoint options st r /\
  (isTestEnv (env st) = false ->
   exists evs,
     request endpoint options st =
       (Throw (new_Error (network_message (BaseClient.baseURL (this st)))),
        with_trace (trace st ++ evs) st) /\
     length (calls evs) = 3%nat /\
     delays evs = [1000; 2000]).
Proof.
  intros Hnet Hct Hjson Hmarker.
  assert (Hnot : content_type_is_json (Response.content_type r) = false).
  { rewrite Hct. exact Hjson. }
  assert (Hattempt : forall tr,
             executeRequest endpoint options (with_trace tr st) =
               (Throw (new_Error (network_message (BaseClient.baseURL (this st)))),
                with_trace (tr ++ [EvSetTimeout (timeout_ms (this st) options);
                                   EvFetch (fetch_call (this st) endpoint options);
                                   EvClearTimeout; EvClearTimeout]) st)).
  { intros tr.
    rewrite (attempt_not_json endpoint options (with_trace tr st) r
               (next_outcome_persistent st _ tr Hnet) Hnot).
    rewrite Hct, (marker_not_empty ct Hmarker).
    fold (invalid_format ct). unfold rethrown, new_Error.
    change (String.eqb "Error" "AbortError") with false. cbv iota.
    rewrite invalid_format_cors, invalid_format_network, Hmarker. reflexivity. }
  assert (Hdiff : new_Error (network_message (BaseClient.baseURL (this st))) <>
                    new_Error (invalid_format ct)).
  { unfold new_Error, network_message, invalid_format. simpl. intros H. discriminate H. }
  split; [|split; [exact Hdiff|split]].
  - eexists. split.
    + rewrite <- (with_trace_id st) at 1. apply Hattempt.
    + simpl. intuition discriminate.
  - intros H. unfold non_json_as_stated in H.
    specialize (H (Hnet _) Hnot). rewrite Hct in H.
    rewrite <- (with_trace_id st) in H at 1. rewrite Hattempt in H. simpl in H.
    apply Hdiff. congruence.
  - intros Htest.
    destruct (retry_exhausted endpoint options st
                (fun e => e = new_Error (network_message (BaseClient.baseURL (this st))))
                Htest) as (e & evs & E & -> & Hcalls & Hdelays).
    + intros tr. eexists. rewrite Hattempt. split; [reflexivity|]. split; reflexivity.
    + exists evs. repeat split; assumption.
Qed.

Lemma invalid_format_rewritten_witness :
  exists evs,
    request "/users" (init "GET" None None)
      (Sample.world Sample.production
         (Sample.always (Sample.other_response 200 (Some "text/CORS")))) =
      (Throw (new_Error
                ("Network error: Unable to reach http://localhost:3000/api" +:+
                 ". This may be due to CORS policy or network connectivity issues.")),
       with_trace
         (trace (Sample.world Sample.production
                   (Sample.always (Sample.other_response 200 (Some "text/CORS")))) ++ evs)
         (Sample.world Sample.production
            (Sample.always (Sample.other_response 200 (Some "text/CORS"))))) /\
    length (calls evs) = 3%nat /\
    delays evs = [1000; 2000].
Proof.
  exact (proj2 (proj2 (proj2 (invalid_format_rewritten "/users" (init "GET" None None)
                                (Sample.world Sample.production
                                   (Sample.always
                                      (Sample.other_response 200 (Some "text/CORS"))))
                                (Sample.other_response 200 (Some "text/CORS")) "text/CORS"
                                (fun _ => eq_refl) eq_refl eq_refl eq_refl))) eq_refl).
Defined.

(** ** The [fetch] calls a method makes *)

Lemma skipn_length_app {A} (l1 l2 : list A) : skipn (length l1) (l1 ++ l2) = l2.
Proof. induction l1 as [|x l1 IH]; simpl; [reflexivity | exact IH]. Qed.

Lemma calls_made_request (endpoint : string) (options : RequestInit.t) (st : State) :
  exists k,
    (1 <= k <= 3)%nat /\
    calls_made (request endpoint options) st =
      repeat (fetch_call (this st) endpoint options) k /\
    this (snd (request endpoint options st)) = this st.
Proof.
  destruct (request_frame endpoint options st)
    as (r & evs & k & E & Hcalls & Hk & _ & _).
  exists k. split; [exact Hk|]. unfold calls_made. rewrite E. simpl.
  rewrite calls_app, skipn_length_app. split; [exact Hcalls | reflexivity].
Qed.

Lemma calls_made_call (verb : Verb) (endpoint : string)
    (options : option RequestOptions.t) (st : State) :
  calls_made (call verb endpoint options) st =
    calls_made (request endpoint (init_of verb options)) st /\
  this (snd (call verb endpoint options st)) = this st.
Proof.
  destruct (calls_made_request endpoint (init_of verb options) st) as (k & _ & _ & Hthis).
  unfold calls_made. rewrite call_unfold.
  destruct (request endpoint (init_of verb options) st) as [[v|e] st']; simpl in *; auto.
Qed.

(** ** [AuthAPI.logout] *)

(** C7.  [logout] clears the access token and the refresh token when the
    remote [POST /auth/logout] resolves, and then returns what the call
    returned; when the remote call throws, [logout] throws the same error
    and both tokens keep the values they had before the call. *)
Theorem logout_tokens (data : value) (st : State) :
  match post "/auth/logout" data None st with
  | (Return response, _) =>
      fst (AuthAPI.logout data st) = Return response /\
      BaseClient.token (this (snd (AuthAPI.logout data st))) = None /\
      BaseClient.refreshToken (this (snd (AuthAPI.logout data st))) = None
  | (Throw e, _) =>
      fst (AuthAPI.logout data st) = Throw e /\
      BaseClient.token (this (snd (AuthAPI.logout data st))) =
        BaseClient.token (this st) /\
      BaseClient.refreshToken (this (snd (AuthAPI.logout data st))) =
        BaseClient.refreshToken (this st)
  end.
Proof.
  pose proof (proj2 (calls_made_call (POST data) "/auth/logout" None st)) as Hthis.
  simpl in Hthis. unfold AuthAPI.logout, bind.
  destruct (post "/auth/logout" data None st) as [[response|e] st1]; simpl in *.
  - repeat split.
  - rewrite Hthis. repeat split.
Qed.

(** The two tests of the suite: a logout that succeeds, and a logout whose
    [fetch] is rejected with [Network error] (in test mode, as there). *)
Example logout_success :
  let st := snd ((setToken "some-token" ;; setRefreshToken "some-refresh-token")
                   (Sample.world Sample.vitest
                      (Sample.always
                         (Sample.json_response 200
                            (VObj [("message", VStr "Logged out successfully")]))))) in
  let '(r, st') := AuthAPI.logout (VObj [("refreshToken", VStr "some-refresh-token")]) st in
  r = Return (VObj [("message", VStr "Logged out successfully")]) /\
  BaseClient.token (this st') = None /\
  BaseClient.refreshToken (this st') = None.
Proof. vm_compute. repeat split. Qed.

Example logout_failure :
  let st := snd ((setToken "some-token" ;; setRefreshToken "some-refresh-token")
                   (Sample.world Sample.vitest
                      (fun _ => RejectsError "Error" "Network error"))) in
  let '(r, st') := AuthAPI.logout (VObj [("refreshToken", VStr "some-refresh-token")]) st in
  r = Throw (Error "Error" "Network error") /\
  BaseClient.token (this st') = Some "some-token" /\
  BaseClient.refreshToken (this st') = Some "some-refresh-token".
Proof. vm_compute. repeat split. Qed.

(** ** The [Authorization] header *)

Lemma authorization_with_token (self : BaseClient.t) (endpoint token : string)
    (options : RequestInit.t) :
  BaseClient.token self = Some token ->
  token <> EmptyString ->
  authorization (fetch_call self endpoint options) = Some ("Bearer " +:+ token).
Proof.
  intros Htoken Hne. unfold authorization, fetch_call, merged_headers. simpl.
  rewrite Htoken. destruct token as [|c token]; [congruence|]. simpl.
  apply lookup_insert_eq.
Qed.

Lemma authorization_without_token (self : BaseClient.t) (endpoint : string)
    (options : RequestInit.t) :
  BaseClient.token self = None ->
  authorization (fetch_call self endpoint options) =
    supplied_headers self options !! "Authorization".
Proof.
  intros Htoken. unfold authorization, fetch_call, merged_headers. simpl.
  rewrite Htoken. reflexivity.
Qed.

(** While the token is [t], every [fetch] of a request carries it. *)
Lemma request_sends_token (endpoint t : string) (options : RequestInit.t) (st : State) :
  BaseClient.token (this st) = Some t ->
  t <> EmptyString ->
  calls_made (request endpoint options) st <> [] /\
  Forall (fun c => authorization c = Some ("Bearer " +:+ t))
    (calls_made (request endpoint options) st).
Proof.
  intros Htoken Hne.
  destruct (calls_made_request endpoint options st) as (k & Hk & -> & _).
  split.
  - destruct k; [lia | discriminate].
  - apply List.Forall_forall. intros c Hin. apply repeat_spec in Hin. subst c.
    apply authorization_with_token; assumption.
Qed.

Lemma request_without_token (endpoint : string) (options : RequestInit.t) (st : State) :
  BaseClient.token (this st) = None ->
  calls_made (request endpoint options) st <> [] /\
  Forall (fun c => authorization c = supplied_headers (this st) options !! "Authorization")
    (calls_made (request endpoint options) st).
Proof.
  intros Htoken.
  destruct (calls_made_request endpoint options st) as (k & Hk & -> & _).
  split.
  - destruct k; [lia | discriminate].
  - apply List.Forall_forall. intros c Hin. apply repeat_spec in Hin. subst c.
    apply authorization_without_token; assumption.
Qed.

(** C8, counterexample.  The header is added under [if (this.token)], and
    the empty string is falsy: after [setToken('')] the request is sent
    with no [Authorization] header at all. *)
Lemma bearer_counterexample :
  List.map authorization
    (calls_made (setToken EmptyString ;; request "/users/me" (init "GET" None None))
       (Sample.world Sample.production (Sample.always (Sample.json_response 200 Sample.user)))) =
    [None] /\
  ~ bearer_as_stated EmptyString "/users/me" (init "GET" None None)
      (Sample.world Sample.production (Sample.always (Sample.json_response 200 Sample.user))).
Proof.
  split; [vm_compute; reflexivity|].
  intros [_ H].
  apply (List.Forall_map authorization (fun a => a = Some ("Bearer " +:+ EmptyString))) in H.
  vm_compute in H. inversion H as [|? ? Hhead _]. discriminate Hhead.
Qed.

(** C8 (amended).  After [setToken t] with a non-empty [t], every [fetch]
    call of a subsequent request (each attempt of it) has the header
    [Authorization] with the value [Bearer t], overriding any
    [Authorization] among the default and per-call headers.  After
    [clearToken()], the [Authorization] header of every [fetch] call is the
    one supplied by the default or per-call headers, and there is none
    when they supply none. *)
Theorem bearer_header (t endpoint : string) (options : RequestInit.t) (st : State) :
  (t <> EmptyString ->
   calls_made (setToken t ;; request endpoint options) st <> [] /\
   Forall (fun c => authorization c = Some ("Bearer " +:+ t))
     (calls_made (setToken t ;; request endpoint options) st)) /\
  (calls_made (clearToken ;; request endpoint options) st <> [] /\
   Forall (fun c =>
             authorization c = supplied_headers (this st) options !! "Authorization")
     (calls_made (clearToken ;; request endpoint options) st)) /\
  (supplied_headers (this st) options !! "Authorization" = None ->
   Forall (fun c => authorization c = None)
     (calls_made (clearToken ;; request endpoint options) st)).
Proof.
  split; [|split].
  - intros Hne.
    change (calls_made (setToken t ;; request endpoint options) st)
      with (calls_made (request endpoint options)
              (with_this (set_token (Some t) (this st)) st)).
    apply request_sends_token; [reflexivity | exact Hne].
  - change (calls_made (clearToken ;; request endpoint options) st)
      with (calls_made (request endpoint options)
              (with_this (set_token None (this st)) st)).
    apply (request_without_token endpoint options
             (with_this (set_token None (this st)) st)). reflexivity.
  - intros Hnone.
    change (calls_made (clearToken ;; request endpoint options) st)
      with (calls_made (request endpoint options)
              (with_this (set_token None (this st)) st)).
    destruct (request_without_token endpoint options
                (with_this (set_token None (this st)) st) eq_refl) as [_ H].
    eapply List.Forall_impl; [|exact H]. intros c Hc. simpl in Hc.
    rewrite Hc. exact Hnone.
Qed.

Lemma bearer_header_witness :
  "mock-jwt-token-abc123" <> EmptyString /\
  calls_made (setToken "mock-jwt-token-abc123" ;; request "/users/me" (init "GET" None None))
    (Sample.world Sample.production (Sample.always unavailable)) <> [] /\
  Forall (fun c => authorization c = Some "Bearer mock-jwt-token-abc123")
    (calls_made (setToken "mock-jwt-token-abc123" ;;
                 request "/users/me" (init "GET" None None))
       (Sample.world Sample.production (Sample.always unavailable))).
Proof.
  split; [discriminate|].
  exact (proj1 (bearer_header "mock-jwt-token-abc123" "/users/me" (init "GET" None None)
                  (Sample.world Sample.production (Sample.always unavailable)))
           ltac:(discriminate)).
Defined.

(** ** The constructor *)

Lemma strip_one_slash (s : string) : strip_trailing_slash (s +:+ "/") = s.
Proof.
  induction s as [|c s IH]; [reflexivity|].
  simpl. rewrite IH. destruct s; reflexivity.
Qed.

Lemma strip_without_slash (s : string) :
  ends_with_slash s = false -> strip_trailing_slash s = s.
Proof.
  induction s as [|c s IH]; [reflexivity|].
  intros H. simpl in *. destruct s as [|c' s].
  - rewrite H. reflexivity.
  - rewrite (IH H). reflexivity.
Qed.

(** C9.  The constructor removes exactly one trailing slash from the base
    address and keeps a base address without a trailing slash unchanged;
    it sets the timeout to 10000 ms when the configuration gives none;
    and its default headers are [Content-Type: application/json] merged
    with the headers of the configuration, an entry of the configuration
    winning over the default for the same key. *)
Theorem constructor_config (config : ClientConfig.t) :
  (forall s, ClientConfig.baseURL config = s +:+ "/" ->
             BaseClient.baseURL (constructor config) = s) /\
  (ends_with_slash (ClientConfig.baseURL config) = false ->
   BaseClient.baseURL (constructor config) = ClientConfig.baseURL config) /\
  (ClientConfig.timeout config = None ->
   BaseClient.timeout (constructor config) = Int 10000) /\
  (forall k,
     BaseClient.defaultHeaders (constructor config) !! k =
       match default ∅ (ClientConfig.headers config) !! k with
       | Some v => Some v
       | None => if String.eqb k "Content-Type" then Some "application/json" else None
       end).
Proof.
  repeat split.
  - intros s Hs. simpl. rewrite Hs. apply strip_one_slash.
  - intros H. simpl. apply strip_without_slash. exact H.
  - intros H. simpl. rewrite H. reflexivity.
  - intros k. simpl.
    destruct (default ∅ (ClientConfig.headers config) !! k) as [v|] eqn:Hk.
    + apply lookup_union_Some_l. exact Hk.
    + rewrite (lookup_union_r _ _ _ Hk).
      destruct (String.eqb_spec k "Content-Type") as [->|Hne].
      * apply lookup_singleton_eq.
      * apply lookup_singleton_ne. congruence.
Qed.

(** The cases of the test suite: a trailing slash is removed, a custom
    header is added to the default one, and a caller may replace the
    default [Content-Type]. *)
Example constructor_trailing_slash :
  BaseClient.baseURL
    (constructor {| ClientConfig.baseURL := "http://localhost:3000/api/";
                    ClientConfig.timeout := None;
                    ClientConfig.headers := None |}) = "http://localhost:3000/api".
Proof. reflexivity. Qed.

Example constructor_two_slashes :
  BaseClient.baseURL
    (constructor {| ClientConfig.baseURL := "http://localhost:3000//";
                    ClientConfig.timeout := None;
                    ClientConfig.headers := None |}) = "http://localhost:3000/".
Proof. reflexivity. Qed.

Example constructor_custom_headers :
  BaseClient.defaultHeaders
    (constructor {| ClientConfig.baseURL := "http://localhost:3000/api";
                    ClientConfig.timeout := None;
                    ClientConfig.headers :=
                      Some {[ "X-Custom-Header" := "custom-value" ]} |}) =
    {[ "Content-Type" := "application/json"; "X-Custom-Header" := "custom-value" ]}.
Proof. apply map_eq. intros k. vm_compute. reflexivity. Qed.

Lemma constructor_config_witness :
  BaseClient.baseURL (constructor Sample.config) = "http://localhost:3000/api" /\
  BaseClient.defaultHeaders
    (constructor {| ClientConfig.baseURL := "http://localhost:3000/api";
                    ClientConfig.timeout := None;
                    ClientConfig.headers := Some {[ "Content-Type" := "text/plain" ]} |})
    !! "Content-Type" = Some "text/plain".
Proof.
  split.
  - exact (proj1 (constructor_config Sample.config) "http://localhost:3000/api" eq_refl).
  - exact (proj2 (proj2 (proj2 (constructor_config
             {| ClientConfig.baseURL := "http://localhost:3000/api";
                ClientConfig.timeout := None;
                ClientConfig.headers := Some {[ "Content-Type" := "text/plain" ]} |})))
             "Content-Type").
Defined.

(** ** The request body of [post], [patch] and [put] *)







(** * Further properties *)

(** ** What a request leaves unchanged and what it sends *)

Lemma events_made_frame {A} (m : Async A) (st : State) (r : Result A) (evs : list Event) :
  m st = (r, with_trace (trace st ++ evs) st) -> events_made m st = evs.
Proof. intros E. unfold events_made. rewrite E. simpl. apply skipn_length_app. Qed.

Lemma call_frame (verb : Verb) (endpoint : string)
    (options : option RequestOptions.t) (st : State) :
  exists r evs k,
    call verb endpoint options st = (r, with_trace (trace st ++ evs) st) /\
    calls evs = repeat (fetch_call (this st) endpoint (init_of verb options)) k /\
    (1 <= k <= 3)%nat /\
    (isTestEnv (env st) = true -> k = 1%nat).
Proof.
  destruct (request_frame endpoint (init_of verb options) st)
    as (r & evs & k & E & Hcalls & Hk & Htest & _).
  rewrite call_unfold, E.
  destruct r as [v|e]; eexists _, evs, k; repeat split; try assumption; lia.
Qed.

(** X1.  A verb method changes nothing but the trace of effects: whatever
    the outcome (a result, a 401 or any other [RendevoAPIError], a
    timeout, a network failure), the tokens, the base address, the
    timeout and the default headers of the client are what they were, and
    so are the environment and the network. *)
Theorem verb_leaves_client_unchanged (verb : Verb) (endpoint : string)
    (options : option RequestOptions.t) (st : State) :
  exists evs,
    snd (call verb endpoint options st) = with_trace (trace st ++ evs) st /\
    this (snd (call verb endpoint options st)) = this st /\
    tokens (this (snd (call verb endpoint options st))) = tokens (this st).
Proof.
  destruct (call_frame verb endpoint options st) as (r & evs & k & E & _).
  exists evs. rewrite E. repeat split.
Qed.



(** ** The timeout timer *)

Lemma timer_scan_app (armed : bool) (tr1 tr2 : list Event) :
  timer_scan armed (tr1 ++ tr2) =
    match timer_scan armed tr1 with
    | Some armed' => timer_scan armed' tr2
    | None => None
    end.
Proof.
  revert armed. induction tr1 as [|e tr1 IH]; intros armed; simpl; [reflexivity|].
  destruct e, armed; simpl; auto.
Qed.

Lemma attempt_timer (endpoint : string) (options : RequestInit.t) (st : State) :
  exists r evs,
    executeRequest endpoint options st = (r, with_trace (trace st ++ evs) st) /\
    timer_scan false evs = Some false.
Proof.
  destruct (next_outcome st) as [r|name message|] eqn:H.
  - destruct (content_type_is_json (Response.content_type r)) eqn:Hct.
    + destruct (Response.json r) as [data|name message] eqn:Hj.
      * destruct (Response.ok r) eqn:Hok.
        -- destruct (attempt_success endpoint options st r data H Hct Hj Hok) as [ts E].
           rewrite E. eexists _, _. split; reflexivity.
        -- destruct (attempt_api_error endpoint options st r data H Hct Hj Hok) as [ts E].
           rewrite E. eexists _, _. split; reflexivity.
      * rewrite (attempt_unparsable endpoint options st r name message H Hct Hj).
        eexists _, _. split; reflexivity.
    + rewrite (attempt_not_json endpoint options st r H Hct).
      eexists _, _. split; reflexivity.
  - rewrite (attempt_rejected endpoint options st name message H).
    eexists _, _. split; reflexivity.
  - rewrite (attempt_rejected_other endpoint options st H).
    eexists _, _. split; reflexivity.
Qed.

Lemma loop_timer (endpoint : string) (options : RequestInit.t) (remaining : nat) :
  forall (attempt : nat) (lastError : option Thrown) (st : State),
    exists r evs,
      request_loop remaining attempt lastError endpoint options st =
        (r, with_trace (trace st ++ evs) st) /\
      timer_scan false evs = Some false.
Proof.
  induction remaining as [|remaining IH]; intros attempt lastError st.
  - eexists _, []. simpl. unfold throw, with_trace. rewrite app_nil_r.
    destruct st; simpl. split; reflexivity.
  - destruct (attempt_timer endpoint options st) as (r1 & evs1 & E1 & Hscan1).
    simpl. unfold try_catch. rewrite E1. destruct r1 as [v|e].
    + exists (Return v), evs1. split; [reflexivity | exact Hscan1].
    + destruct (_ || negb (isRetryableError e)).
      * exists (Throw e), evs1. split; [reflexivity | exact Hscan1].
      * unfold bind, delay, emit. simpl.
        destruct (IH (S attempt) (Some e)
                    (with_trace ((trace st ++ evs1) ++ [EvDelay (2 ^ Z.of_nat attempt * 1000)])
                       (with_trace (trace st ++ evs1) st)))
          as (r & evs2 & E2 & Hscan2).
        rewrite E2. exists r, (evs1 ++ EvDelay (2 ^ Z.of_nat attempt * 1000) :: evs2).
        split.
        -- unfold with_trace. simpl. rewrite <- !app_assoc. reflexivity.
        -- rewrite timer_scan_app, Hscan1. simpl. exact Hscan2.
Qed.

(** X3.  Every attempt owns one timeout timer and clears it on every exit
    path.  Along the effects of any verb method call, in test mode or
    not: a timer is armed only when none is armed, [fetch] is called only
    under an armed timer, [response.json()] and the back-off delays
    happen only after the timer was cleared (reading the body is not
    covered by the timeout), and no timer is left armed at the end. *)
Theorem timer_always_cleared (verb : Verb) (endpoint : string)
    (options : option RequestOptions.t) (st : State) :
  timer_scan false (events_made (call verb endpoint options) st) = Some false.
Proof.
  assert (H : exists r evs,
             request endpoint (init_of verb options) st =
               (r, with_trace (trace st ++ evs) st) /\
             timer_scan false evs = Some false).
  { rewrite request_unfold. destruct (isTestEnv (env st)).
    - apply attempt_timer.
    - apply loop_timer. }
  destruct H as (r & evs & E & Hscan).
  unfold events_made. rewrite call_unfold, E.
  destruct r as [v|e]; simpl; rewrite skipn_length_app; exact Hscan.
Qed.

(** ** The loop of [request] *)

Lemma with_trace_nil (st : State) : with_trace (trace st ++ []) st = st.
Proof. unfold with_trace. rewrite app_nil_r. destruct st; reflexivity. Qed.

Lemma loop_last_attempt (endpoint : string) (options : RequestInit.t) (remaining : nat) :
  forall (attempt : nat) (lastError : option Thrown) (st : State),
    (S remaining + attempt = maxRetries)%nat ->
    exists earlier,
      request_loop (S remaining) attempt lastError endpoint options st =
        executeRequest endpoint options (with_trace (trace st ++ earlier) st).
Proof.
  induction remaining as [|remaining IH]; intros attempt lastError st Hsum.
  - exists []. rewrite with_trace_nil.
    assert (attempt = 2%nat) as -> by (unfold maxRetries in Hsum; lia).
    destruct (executeRequest endpoint options st) as [[v|e] st1] eqn:E.
    + apply loop_return. exact E.
    + apply loop_stop; [exact E | left; reflexivity].
  - destruct (attempt_frame endpoint options st) as (r1 & evs1 & E1 & _).
    destruct r1 as [v|e].
    + exists []. rewrite with_trace_nil, E1. apply loop_return. exact E1.
    + destruct (isRetryableError e) eqn:Hretry.
      * rewrite (loop_retry endpoint options (S remaining) attempt lastError _ _ _ E1
                   ltac:(unfold maxRetries in Hsum; lia) Hretry).
        destruct (IH (S attempt) (Some e)
                    (with_trace
                       (trace (with_trace (trace st ++ evs1) st) ++
                        [EvDelay (2 ^ Z.of_nat attempt * 1000)])
                       (with_trace (trace st ++ evs1) st)))
          as [earlier E2]; [lia|].
        rewrite E2. exists (evs1 ++ EvDelay (2 ^ Z.of_nat attempt * 1000) :: earlier).
        unfold with_trace. simpl. rewrite <- !app_assoc. reflexivity.
      * exists []. rewrite with_trace_nil, E1.
        apply loop_stop; [exact E1 | right; exact Hretry].
Qed.

(** X4.  What [request] returns or throws, and the state it ends in, are
    those of one attempt, its last one (run after the effects of the
    earlier attempts and delays).  The [throw] that follows the loop, with
    its [Request failed after retries] error, is never reached. *)
Theorem request_ends_with_last_attempt (endpoint : string) (options : RequestInit.t)
    (st : State) :
  exists earlier,
    request endpoint options st =
      executeRequest endpoint options (with_trace (trace st ++ earlier) st).
Proof.
  rewrite request_unfold. destruct (isTestEnv (env st)).
  - exists []. rewrite with_trace_nil. reflexivity.
  - apply (loop_last_attempt endpoint options 2 0 None st). reflexivity.
Qed.

(** ** Failures that persist *)

(** X5.  When the timer aborts the [fetch] (it rejects with an error named
    [AbortError]), the attempt throws a generic error whose message names
    the endpoint and the number of milliseconds the timer was armed with.
    That number is the per-call timeout when it is truthy; a per-call
    timeout that is absent, 0 or [NaN] gives way to the timeout of the
    client.  It is printed as a template literal prints it: in exponent
    form from 1e21 on. *)
Theorem timeout_error (endpoint : string) (options : RequestInit.t) (st : State)
    (message : string) :
  next_outcome st = RejectsError "AbortError" message ->
  (exists evs,
     executeRequest endpoint options st =
       (Throw (new_Error (timeout_message endpoint (timeout_ms (this st) options))),
        with_trace (trace st ++ EvSetTimeout (timeout_ms (this st) options) :: evs) st)) /\
  (forall n,
     RequestInit.timeout options = Some n -> number_truthy n = true ->
     timeout_ms (this st) options = n) /\
  (RequestInit.timeout options = None \/
   RequestInit.timeout options = Some (Int 0) \/
   RequestInit.timeout options = Some NaN ->
   timeout_ms (this st) options = BaseClient.timeout (this st)).
Proof.
  intros H. split; [|split].
  - rewrite (attempt_rejected endpoint options st "AbortError" message H).
    eexists. reflexivity.
  - intros n Hn Htruthy. unfold timeout_ms. rewrite Hn. simpl. rewrite Htruthy. reflexivity.
  - intros [Hn | [Hn | Hn]]; unfold timeout_ms; rewrite Hn; reflexivity.
Qed.

Lemma timeout_error_witness :
  fst (executeRequest "/slow"
         {| RequestInit.method := Some "GET"; RequestInit.body := None;
            RequestInit.timeout := Some (Int 0); RequestInit.headers := None |}
         (Sample.world Sample.vitest timing_out)) =
    Throw (new_Error "Request timeout: The request to /slow took longer than 30000ms") /\
  fst (executeRequest "/slow"
         {| RequestInit.method := Some "GET"; RequestInit.body := None;
            RequestInit.timeout := Some (Int 1000000000000000000000);
            RequestInit.headers := None |}
         (Sample.world Sample.vitest timing_out)) =
    Throw (new_Error "Request timeout: The request to /slow took longer than 1e+21ms").
Proof.
  split.
  - destruct (proj1 (timeout_error "/slow"
                       {| RequestInit.method := Some "GET"; RequestInit.body := None;
                          RequestInit.timeout := Some (Int 0); RequestInit.headers := None |}
                       (Sample.world Sample.vitest timing_out)
                       "This operation was aborted" eq_refl)) as [evs E].
    rewrite E. reflexivity.
  - destruct (proj1 (timeout_error "/slow"
                       {| RequestInit.method := Some "GET"; RequestInit.body := None;
                          RequestInit.timeout := Some (Int 1000000000000000000000);
                          RequestInit.headers := None |}
                       (Sample.world Sample.vitest timing_out)
                       "This operation was aborted" eq_refl)) as [evs E].
    rewrite E. vm_compute. reflexivity.
Defined.

(** X6.  A [fetch] that is rejected (with anything but an [AbortError])
    with a message containing [CORS] or [Network request failed] is
    thrown as the generic error [Network error: Unable to reach <base
    address>...]: the original message is dropped.  That error is
    retryable: outside test mode, while the failure persists, three
    attempts are made, 1000 ms and 2000 ms apart, before it reaches the
    caller. *)
Theorem network_failure_normalised (endpoint : string) (options : RequestInit.t)
    (st : State) (name message : string) :
  String.eqb name "AbortError" = false ->
  includes "CORS" message || includes "Network request failed" message = true ->
  (forall k, network st k = RejectsError name message) ->
  fst (executeRequest endpoint options st) =
    Throw (new_Error (network_message (BaseClient.baseURL (this st)))) /\
  (isTestEnv (env st) = false ->
   exists evs,
     request endpoint options st =
       (Throw (new_Error (network_message (BaseClient.baseURL (this st)))),
        with_trace (trace st ++ evs) st) /\
     length (calls evs) = 3%nat /\
     delays evs = [1000; 2000]).
Proof.
  intros Hname Hmarker Hnet.
  assert (Hattempt : forall tr,
             fst (executeRequest endpoint options (with_trace tr st)) =
               Throw (new_Error (network_message (BaseClient.baseURL (this st))))).
  { intros tr.
    rewrite (attempt_rejected endpoint options (with_trace tr st) name message
               (next_outcome_persistent st _ tr Hnet)).
    simpl. rewrite Hname, Hmarker. reflexivity. }
  split.
  - rewrite <- (with_trace_id st) at 1. apply Hattempt.
  - intros Htest.
    destruct (retry_exhausted endpoint options st
                (fun e => e = new_Error (network_message (BaseClient.baseURL (this st))))
                Htest) as (e & evs & E & -> & Hcalls & Hdelays).
    + intros tr. eexists. split; [apply Hattempt|]. split; reflexivity.
    + exists evs. repeat split; assumption.
Qed.

Lemma network_failure_normalised_witness :
  exists evs,
    request "/users" RequestInit.empty
      (Sample.world Sample.production
         (persistent (RejectsError "TypeError" "Network request failed"))) =
      (Throw (new_Error
                ("Network error: Unable to reach http://localhost:3000/api" +:+
                 ". This may be due to CORS policy or network connectivity issues.")),
       with_trace
         (trace (Sample.world Sample.production
                   (persistent (RejectsError "TypeError" "Network request failed"))) ++ evs)
         (Sample.world Sample.production
            (persistent (RejectsError "TypeError" "Network request failed")))) /\
    length (calls evs) = 3%nat /\
    delays evs = [1000; 2000].
Proof.
  exact (proj2 (network_failure_normalised "/users" RequestInit.empty
                  (Sample.world Sample.production
                     (persistent (RejectsError "TypeError" "Network request failed")))
                  "TypeError" "Network request failed" eq_refl eq_refl
                  (fun _ => eq_refl)) eq_refl).
Defined.

(** X7.  Any other rejected [fetch] (not an [AbortError], no [CORS] or
    [Network request failed] in its message) reaches the caller as the
    very error [fetch] rejected with.  Outside test mode, while the
    failure persists, it does so after three attempts when the message
    contains [Network error], [fetch failed] or [ECONNREFUSED], and after
    a single attempt when it does not. *)
Theorem rejection_rethrown_unchanged (endpoint : string) (options : RequestInit.t)
    (st : State) (name message : string) :
  String.eqb name "AbortError" = false ->
  includes "CORS" message || includes "Network request failed" message = false ->
  (forall k, network st k = RejectsError name message) ->
  isTestEnv (env st) = false ->
  exists evs,
    request endpoint options st =
      (Throw (Error name message), with_trace (trace st ++ evs) st) /\
    length (calls evs) = (if has_network_marker message then 3 else 1)%nat /\
    delays evs = if has_network_marker message then [1000; 2000] else [].
Proof.
  intros Hname Hmarker Hnet Htest.
  assert (Hattempt : forall tr,
             executeRequest endpoint options (with_trace tr st) =
               (Throw (Error name message),
                with_trace (tr ++ [EvSetTimeout (timeout_ms (this st) options);
                                   EvFetch (fetch_call (this st) endpoint options);
                                   EvClearTimeout]) st)).
  { intros tr.
    rewrite (attempt_rejected endpoint options (with_trace tr st) name message
               (next_outcome_persistent st _ tr Hnet)).
    simpl. rewrite Hname, Hmarker. reflexivity. }
  destruct (has_network_marker message) eqn:Hretry.
  - destruct (retry_exhausted endpoint options st (fun e => e = Error name message) Htest)
      as (e & evs & E & -> & Hcalls & Hdelays).
    + intros tr. eexists. rewrite Hattempt. split; [reflexivity|].
      split; [exact Hretry | reflexivity].
    + exists evs. repeat split; assumption.
  - eexists. split.
    + apply request_not_retryable; [|exact Hretry].
      rewrite <- (with_trace_id st) at 1. apply Hattempt.
    + split; reflexivity.
Qed.

Lemma rejection_rethrown_unchanged_witness :
  exists evs,
    request "/users" RequestInit.empty
      (Sample.world Sample.production (persistent (RejectsError "TypeError" "fetch failed"))) =
      (Throw (Error "TypeError" "fetch failed"),
       with_trace
         (trace (Sample.world Sample.production
                   (persistent (RejectsError "TypeError" "fetch failed"))) ++ evs)
         (Sample.world Sample.production
            (persistent (RejectsError "TypeError" "fetch failed")))) /\
    length (calls evs) = 3%nat /\
    delays evs = [1000; 2000].
Proof.
  exact (rejection_rethrown_unchanged "/users" RequestInit.empty
           (Sample.world Sample.production (persistent (RejectsError "TypeError" "fetch failed")))
           "TypeError" "fetch failed" eq_refl eq_refl (fun _ => eq_refl) eq_refl).
Defined.

(** ** Retrying *)





(** ** Headers and timeouts *)

Lemma merged_headers_lookup (self : BaseClient.t) (options : RequestInit.t) (k : string) :
  merged_headers self options !! k =
    match (if String.eqb k "Authorization" then bearer self else None) with
    | Some authorization => Some authorization
    | None =>
        match default ∅ (RequestInit.headers options) !! k with
        | Some v => Some v
        | None => BaseClient.defaultHeaders self !! k
        end
    end.
Proof.
  assert (Hsupplied :
            (default ∅ (RequestInit.headers options) ∪ BaseClient.defaultHeaders self) !! k =
              match default ∅ (RequestInit.headers options) !! k with
              | Some v => Some v
              | None => BaseClient.defaultHeaders self !! k
              end).
  { destruct (default ∅ (RequestInit.headers options) !! k) as [v|] eqn:Hk.
    - apply lookup_union_Some_l. exact Hk.
    - apply lookup_union_r. exact Hk. }
  unfold merged_headers, bearer.
  destruct (BaseClient.token self) as [token|].
  - destruct (string_truthy token).
    + destruct (String.eqb_spec k "Authorization") as [->|Hne].
      * apply lookup_insert_eq.
      * rewrite lookup_insert_ne by congruence. exact Hsupplied.
    + destruct (String.eqb k "Authorization"); exact Hsupplied.
  - destruct (String.eqb k "Authorization"); exact Hsupplied.
Qed.

(** X10.  In every [fetch] call of a request, each header comes from the
    first of three places that has it: for [Authorization], a truthy token
    of the client (as [Bearer <token>]); then the per-call headers; then
    the default headers of the client.  So a per-call header replaces the
    default of the same name ([Content-Type] included), a truthy token
    replaces an [Authorization] header supplied by the caller, and a
    header found in none of the three is not sent. *)
Theorem header_precedence (endpoint k : string) (options : RequestInit.t) (st : State) :
  Forall
    (fun c =>
       FetchCall.headers c !! k =
         match (if String.eqb k "Authorization" then bearer (this st) else None) with
         | Some authorization => Some authorization
         | None =>
             match default ∅ (RequestInit.headers options) !! k with
             | Some v => Some v
             | None => BaseClient.defaultHeaders (this st) !! k
             end
         end)
    (calls_made (request endpoint options) st).
Proof.
  destruct (calls_made_request endpoint options st) as (n & _ & -> & _).
  apply List.Forall_forall. intros c Hin. apply repeat_spec in Hin. subst c.
  apply merged_headers_lookup.
Qed.

(** X11.  A client built by the constructor never has a falsy timeout: a
    configured timeout that is absent, 0 or [NaN] becomes 10000, any other
    is kept.  So the timer of an attempt is never armed with 0 or [NaN],
    whatever the per-call timeout.  A new client holds no token. *)
Theorem constructed_timeout (config : ClientConfig.t) :
  number_truthy (BaseClient.timeout (constructor config)) = true /\
  (ClientConfig.timeout config = None \/
   ClientConfig.timeout config = Some (Int 0) \/
   ClientConfig.timeout config = Some NaN ->
   BaseClient.timeout (constructor config) = Int 10000) /\
  (forall n,
     ClientConfig.timeout config = Some n -> number_truthy n = true ->
     BaseClient.timeout (constructor config) = n) /\
  (forall options, number_truthy (timeout_ms (constructor config) options) = true) /\
  tokens (constructor config) = (None, None).
Proof.
  assert (Htruthy : number_truthy (BaseClient.timeout (constructor config)) = true).
  { simpl. destruct (ClientConfig.timeout config) as [n|]; simpl; [|reflexivity].
    destruct (number_truthy n) eqn:Hn; [exact Hn | reflexivity]. }
  split; [exact Htruthy|]. split; [|split; [|split]].
  - intros [H | [H | H]]; simpl; rewrite H; reflexivity.
  - intros n H Hn. simpl. rewrite H. simpl. rewrite Hn. reflexivity.
  - intros options. unfold timeout_ms.
    destruct (RequestInit.timeout options) as [n|]; simpl; [|exact Htruthy].
    destruct (number_truthy n) eqn:Hn; [exact Hn | exact Htruthy].
  - reflexivity.
Qed.

(** ** [AuthAPI]: the methods that store tokens *)

Lemma post_frame (endpoint : string) (body : value) (st : State) :
  exists r evs,
    post endpoint body None st = (r, with_trace (trace st ++ evs) st).
Proof.
  destruct (call_frame (POST body) endpoint None st) as (r & evs & k & E & _).
  exists r, evs. exact E.
Qed.

(** X12.  [login] stores the access token of the response and nothing
    else.  When the remote call throws, [login] throws the same error and
    both tokens are what they were.  When it returns data whose
    [access_token] is a string, that string becomes the token and the
    refresh token is left as it was: unlike [register] and [refresh],
    [login] does not store the [refresh_token] of the response.  When the
    data has no [access_token], the current token is erased.  When the
    data is [null], reading [access_token] throws a [TypeError] and the
    tokens are what they were. *)
Theorem login_stores_access_token (credentials : value) (st : State) :
  match post "/auth/login" credentials None st with
  | (Throw e, st1) =>
      AuthAPI.login credentials st = Some (Throw e, st1) /\
      tokens (this st1) = tokens (this st)
  | (Return data, st1) =>
      (forall s,
         data <> VNull -> data <> VUndefined ->
         prop "access_token" data = VStr s ->
         exists st2,
           AuthAPI.login credentials st = Some (Return data, st2) /\
           tokens (this st2) = (Some s, BaseClient.refreshToken (this st))) /\
      (data <> VNull -> data <> VUndefined ->
       prop "access_token" data = VUndefined ->
       exists st2,
         AuthAPI.login credentials st = Some (Return data, st2) /\
         tokens (this st2) = (None, BaseClient.refreshToken (this st))) /\
      (data = VNull ->
       exists message,
         AuthAPI.login credentials st = Some (Throw (Error "TypeError" message), st1) /\
         tokens (this st1) = tokens (this st))
  end.
Proof.
  destruct (post_frame "/auth/login" credentials st) as (r & evs & E).
  unfold AuthAPI.login, tbind, lift, assign. rewrite E.
  destruct r as [data|e]; [|split; reflexivity].
  split; [|split].
  - intros s Hnull Hundef Hs. destruct data; try congruence; simpl in *;
      rewrite ?Hs; try discriminate Hs; eexists; split; reflexivity.
  - intros Hnull Hundef Hs. destruct data; try congruence; simpl in *;
      rewrite ?Hs; eexists; split; reflexivity.
  - intros ->. simpl. eexists. split; reflexivity.
Qed.

(** X13.  [register] and [refresh] store both tokens of the response.
    When the remote call returns data whose [access_token] and
    [refresh_token] are strings, these become the token and the refresh
    token of the client; when the remote call throws, the method throws
    the same error and both tokens are what they were. *)
Theorem register_and_refresh_store_both (body : value) (st : State) :
  Forall
    (fun '(method, endpoint) =>
       match post endpoint body None st with
       | (Throw e, st1) =>
           method body st = Some (Throw e, st1) /\
           tokens (this st1) = tokens (this st)
       | (Return data, st1) =>
           forall a b,
             data <> VNull -> data <> VUndefined ->
             prop "access_token" data = VStr a ->
             prop "refresh_token" data = VStr b ->
             exists st2,
               method body st = Some (Return data, st2) /\
               tokens (this st2) = (Some a, Some b)
       end)
    [(AuthAPI.register, "/auth/register"); (AuthAPI.refresh, "/auth/refresh")].
Proof.
  repeat constructor.
  - destruct (post_frame "/auth/register" body st) as (r & evs & E).
    unfold AuthAPI.register, tbind, lift, assign. rewrite E.
    destruct r as [data|e]; [|split; reflexivity].
    intros a b Hnull Hundef Ha Hb.
    destruct data; try congruence; simpl in *; rewrite ?Ha, ?Hb;
      try discriminate Ha; eexists; split; reflexivity.
  - destruct (post_frame "/auth/refresh" body st) as (r & evs & E).
    unfold AuthAPI.refresh, tbind, lift, assign. rewrite E.
    destruct r as [data|e]; [|split; reflexivity].
    intros a b Hnull Hundef Ha Hb.
    destruct data; try congruence; simpl in *; rewrite ?Ha, ?Hb;
      try discriminate Ha; eexists; split; reflexivity.
Qed.

Lemma login_stores_access_token_witness :
  exists st2,
    AuthAPI.login credentials
      (snd (setRefreshToken "old-refresh-token"
              (Sample.world Sample.vitest (Sample.always login_response)))) =
      Some (Return (createMockAuthResponse
                      {| AuthResponseFactoryOptions.token := None;
                         AuthResponseFactoryOptions.refreshToken := None;
                         AuthResponseFactoryOptions.user := None |}),
            st2) /\
    tokens (this st2) = (Some "mock-jwt-token-abc123", Some "old-refresh-token").
Proof.
  pose proof (login_stores_access_token credentials
                (snd (setRefreshToken "old-refresh-token"
                        (Sample.world Sample.vitest (Sample.always login_response)))))
    as H.
  destruct (post "/auth/login" credentials None
              (snd (setRefreshToken "old-refresh-token"
                      (Sample.world Sample.vitest (Sample.always login_response)))))
    as [[data|e] st1] eqn:E; vm_compute in E; inversion E; subst data st1.
  destruct H as (H & _ & _).
  destruct (H "mock-jwt-token-abc123") as (st2 & E2 & Htokens);
    [discriminate | discriminate | reflexivity |].
  exists st2. split; [exact E2 | exact Htokens].
Defined.

(** ** [AuthAPI]: the methods that store nothing *)

Lemma call_sends (verb : Verb) (endpoint : string) (st : State) :
  sends (call verb endpoint None) st (verb_name verb) endpoint (verb_body verb) /\
  this (snd (call verb endpoint None st)) = this st.
Proof.
  destruct (call_frame verb endpoint None st) as (r & evs & k & E & Hcalls & Hk & _).
  unfold sends, calls_made. rewrite E. simpl.
  rewrite calls_app, skipn_length_app, Hcalls. repeat split.
  - destruct k; [lia | discriminate].
  - apply List.Forall_forall. intros c Hin. apply repeat_spec in Hin. subst c.
    destruct verb; repeat split.
Qed.

(** X14.  [forgotPassword], [resetPassword], [verifyEmail] and
    [resendVerification] each send a [POST] with the text of their
    argument to their own fixed path, and never change a token, whether
    the remote call succeeds or throws. *)
Theorem password_and_verification_methods (data : value) (st : State) :
  Forall
    (fun '(method, path) =>
       sends (method data) st "POST" path (body_text data) /\
       tokens (this (snd (method data st))) = tokens (this st))
    [(AuthAPI.forgotPassword, "/auth/forgot-password");
     (AuthAPI.resetPassword, "/auth/reset-password");
     (AuthAPI.verifyEmail, "/auth/verify-email");
     (AuthAPI.resendVerification, "/auth/resend-verification")].
Proof.
  apply List.Forall_cons.
  { split; [exact (proj1 (call_sends (POST data) "/auth/forgot-password" st))|].
    exact (f_equal tokens (proj2 (call_sends (POST data) "/auth/forgot-password" st))). }
  apply List.Forall_cons.
  { split; [exact (proj1 (call_sends (POST data) "/auth/reset-password" st))|].
    exact (f_equal tokens (proj2 (call_sends (POST data) "/auth/reset-password" st))). }
  apply List.Forall_cons.
  { split; [exact (proj1 (call_sends (POST data) "/auth/verify-email" st))|].
    exact (f_equal tokens (proj2 (call_sends (POST data) "/auth/verify-email" st))). }
  apply List.Forall_cons.
  { split; [exact (proj1 (call_sends (POST data) "/auth/resend-verification" st))|].
    exact (f_equal tokens (proj2 (call_sends (POST data) "/auth/resend-verification" st))). }
  apply List.Forall_nil.
Qed.

(** ** [UsersAPI] *)

(** X15.  The requests of [UsersAPI]: [getAll] sends [GET /users],
    [getMe] sends [GET /users/me], [getById] sends [GET /users/<id>],
    [update] sends [PATCH /users/<id>] with the text of its data, [remove]
    sends [DELETE /users/<id>]; none of the three [GET]s and no [DELETE]
    carries a body.  The id is appended as it is given, without any
    encoding, so [getById('me')] is the request of [getMe]. *)
Theorem users_requests (id : string) (data : value) (st : State) :
  sends UsersAPI.getAll st "GET" "/users" None /\
  sends UsersAPI.getMe st "GET" "/users/me" None /\
  sends (UsersAPI.getById id) st "GET" ("/users/" +:+ id) None /\
  sends (UsersAPI.update id data) st "PATCH" ("/users/" +:+ id) (body_text data) /\
  sends (UsersAPI.remove id) st "DELETE" ("/users/" +:+ id) None /\
  UsersAPI.getById "me" st = UsersAPI.getMe st.
Proof.
  split; [exact (proj1 (call_sends GET "/users" st))|].
  split; [exact (proj1 (call_sends GET "/users/me" st))|].
  split; [exact (proj1 (call_sends GET ("/users/" +:+ id) st))|].
  split; [exact (proj1 (call_sends (PATCH data) ("/users/" +:+ id) st))|].
  split; [|reflexivity].
  pose proof (proj1 (call_sends DELETE ("/users/" +:+ id) st)) as H.
  unfold sends, calls_made, UsersAPI.remove, bind in *. simpl in *.
  destruct (delete ("/users/" +:+ id) None st) as [[v|e] st1]; exact H.
Qed.

(** X16.  [remove] resolves with [undefined] whatever data the server
    sent back: for every 2xx JSON response, enveloped or not, the result
    is [undefined].  When [delete] throws, [remove] throws the same
    error. *)
Theorem remove_returns_undefined (id : string) (st : State) :
  match delete ("/users/" +:+ id) None st with
  | (Return _, st1) => UsersAPI.remove id st = (Return VUndefined, st1)
  | (Throw e, st1) => UsersAPI.remove id st = (Throw e, st1)
  end /\
  (forall r data,
     json_2xx st r data -> fst (UsersAPI.remove id st) = Return VUndefined).
Proof.
  split.
  - unfold UsersAPI.remove, bind.
    destruct (delete ("/users/" +:+ id) None st) as [[v|e] st1]; reflexivity.
  - intros r data (Hnext & Hok & Hct & Hjson).
    destruct (attempt_success ("/users/" +:+ id) (init_of DELETE None) st r data
                Hnext Hct Hjson Hok) as [timestamp E].
    apply request_return in E.
    unfold UsersAPI.remove, delete, bind. simpl in E. rewrite E. reflexivity.
Qed.

(** ** [RendevoClient]: one token state for two API objects *)

Import RendevoClient.

Lemma on_api_same (a : Api) (c : t) : on_api a (fun _ => api a c) c = c.
Proof. destruct a, c; reflexivity. Qed.

(** X17.  The two API objects of a client start with the same tokens
    (none) and with the same configuration, and the token methods of the
    client and of [client.auth] keep them the same: each of [setToken],
    [clearToken], [setRefreshToken] and [clearRefreshToken] acts on both
    objects.  After [setToken t] the token of the client and of both
    objects is [t]; after [clearToken] it is absent everywhere; the
    refresh token is not touched by either. *)
Theorem tokens_kept_in_sync (config : ClientConfig.t) (c : t) (token : string) :
  auth (RendevoClient.constructor config) = users (RendevoClient.constructor config) /\
  in_sync (RendevoClient.constructor config) /\
  (in_sync c ->
   Forall (fun method => in_sync (method c))
     [RendevoClient.setToken token; RendevoClient.clearToken;
      RendevoClient.setRefreshToken token; RendevoClient.clearRefreshToken;
      auth_setToken token; auth_clearToken;
      auth_setRefreshToken token; auth_clearRefreshToken]) /\
  (RendevoClient.getToken (RendevoClient.setToken token c) = Some token /\
   BaseClient.token (users (RendevoClient.setToken token c)) = Some token /\
   RendevoClient.getRefreshToken (RendevoClient.setToken token c) =
     RendevoClient.getRefreshToken c) /\
  (RendevoClient.getToken (RendevoClient.clearToken c) = None /\
   BaseClient.token (users (RendevoClient.clearToken c)) = None /\
   RendevoClient.getRefreshToken (RendevoClient.clearToken c) =
     RendevoClient.getRefreshToken c).
Proof.
  split; [reflexivity|]. split; [reflexivity|]. split; [|repeat split].
  intros Hsync. unfold in_sync, tokens in *.
  injection Hsync as Htoken Hrefresh.
  repeat apply List.Forall_cons; try apply List.Forall_nil;
    unfold in_sync, tokens; simpl; congruence.
Qed.

(** X18.  The token methods of [client.users] are not linked:
    [client.users.setToken(t)] changes the token of [users] alone.  The
    token of [auth], which is what [client.getToken()] returns, stays
    what it was, so the two objects hold different tokens unless [auth]
    had [t] already. *)
Theorem users_token_not_propagated (c : t) (token : string) :
  auth (users_setToken token c) = auth c /\
  RendevoClient.getToken (users_setToken token c) = RendevoClient.getToken c /\
  BaseClient.token (users (users_setToken token c)) = Some token /\
  (RendevoClient.getToken c <> Some token -> ~ in_sync (users_setToken token c)).
Proof.
  repeat split. intros Hdiff Hsync. apply Hdiff.
  unfold in_sync, tokens in Hsync. simpl in Hsync. unfold RendevoClient.getToken.
  congruence.
Qed.

Lemma users_token_not_propagated_witness :
  ~ in_sync (users_setToken "only-for-users"
               (RendevoClient.constructor Sample.config)).
Proof.
  apply (proj2 (proj2 (proj2 (users_token_not_propagated
                                (RendevoClient.constructor Sample.config)
                                "only-for-users")))).
  discriminate.
Defined.

Lemma on_frame {A} (a : Api) (m : Async A) (w : World) (r : Result A) (evs : list Event) :
  m (focus a w) = (r, with_trace (trace (focus a w) ++ evs) (focus a w)) ->
  on a m w =
    (r, {| clients := clients w; w_env := w_env w; w_network := w_network w;
           w_clock := w_clock w; w_trace := w_trace w ++ evs |}).
Proof.
  intros E. unfold on. rewrite E. unfold unfocus. simpl.
  rewrite on_api_same. reflexivity.
Qed.

(** X19.  [client.auth.logout] on a [RendevoClient]: when the remote call
    returns, the token and the refresh token of both API objects are
    cleared and the response is returned; when the remote call throws,
    [logout] throws the same error and both objects keep their tokens and
    everything else. *)
Theorem client_logout (data : value) (w : World) :
  match on Auth (post "/auth/logout" data None) w with
  | (Return response, _) =>
      fst (auth_logout data w) = Return response /\
      tokens (auth (clients (snd (auth_logout data w)))) = (None, None) /\
      tokens (users (clients (snd (auth_logout data w)))) = (None, None)
  | (Throw e, _) =>
      fst (auth_logout data w) = Throw e /\
      clients (snd (auth_logout data w)) = clients w
  end.
Proof.
  destruct (post_frame "/auth/logout" data (focus Auth w)) as (r & evs & E).
  unfold auth_logout. rewrite (on_frame Auth _ w r evs E).
  destruct r as [response|e]; repeat split.
Qed.

(** X20.  [client.auth.login] on a [RendevoClient]: when the remote call
    returns data whose [access_token] is a string, that string becomes
    the token of both API objects, and is what [client.getToken()]
    returns; the refresh tokens are left as they were.  When the remote
    call throws, [login] throws the same error and nothing changes. *)
Theorem client_login (credentials : value) (w : World) :
  match on Auth (post "/auth/login" credentials None) w with
  | (Return data, w1) =>
      forall s,
        data <> VNull -> data <> VUndefined ->
        prop "access_token" data = VStr s ->
        exists w2,
          auth_login credentials w = Some (Return data, w2) /\
          RendevoClient.getToken (clients w2) = Some s /\
          BaseClient.token (auth (clients w2)) = Some s /\
          BaseClient.token (users (clients w2)) = Some s /\
          BaseClient.refreshToken (auth (clients w2)) =
            BaseClient.refreshToken (auth (clients w)) /\
          BaseClient.refreshToken (users (clients w2)) =
            BaseClient.refreshToken (users (clients w))
  | (Throw e, w1) =>
      auth_login credentials w = Some (Throw e, w1) /\
      clients w1 = clients w
  end.
Proof.
  destruct (post_frame "/auth/login" credentials (focus Auth w)) as (r & evs & E).
  unfold auth_login. rewrite (on_frame Auth _ w r evs E).
  destruct r as [data|e]; [|split; reflexivity].
  intros s Hnull Hundef Hs.
  destruct data; try congruence; simpl in *; rewrite ?Hs; try discriminate Hs;
    eexists; repeat split.
Qed.

(** X21.  A token given to the client reaches the requests of
    [client.users]: after [client.setToken(t)] with a non-empty [t],
    every [fetch] call of a verb method run on the [users] object carries
    [Authorization: Bearer t]. *)
Theorem client_token_reaches_users (token : string) (verb : Verb) (endpoint : string)
    (options : option RequestOptions.t) (w : World) :
  token <> EmptyString ->
  calls_made (call verb endpoint options)
    (focus Users (with_clients (RendevoClient.setToken token (clients w)) w)) <> [] /\
  Forall (fun c => authorization c = Some ("Bearer " +:+ token))
    (calls_made (call verb endpoint options)
       (focus Users (with_clients (RendevoClient.setToken token (clients w)) w))).
Proof.
  intros Hne.
  rewrite (proj1 (calls_made_call verb endpoint options _)).
  apply request_sends_token; [reflexivity | exact Hne].
Qed.

Lemma client_token_reaches_users_witness :
  Forall (fun c => authorization c = Some "Bearer manual-token-123")
    (calls_made UsersAPI.getMe
       (focus Users
          (with_clients
             (RendevoClient.setToken "manual-token-123"
                (clients (facade_world Sample.config Sample.production
                            (Sample.always unavailable))))
             (facade_world Sample.config Sample.production (Sample.always unavailable))))).
Proof.
  exact (proj2 (client_token_reaches_users "manual-token-123" GET "/users/me" None
                  (facade_world Sample.config Sample.production (Sample.always unavailable))
                  ltac:(discriminate))).
Defined.

Lemma client_login_witness :
  exists w2,
    auth_login credentials
      (facade_world Sample.config Sample.vitest (Sample.always login_response)) =
      Some (Return (createMockAuthResponse
                      {| AuthResponseFactoryOptions.token := None;
                         AuthResponseFactoryOptions.refreshToken := None;
                         AuthResponseFactoryOptions.user := None |}),
            w2) /\
    RendevoClient.getToken (clients w2) = Some "mock-jwt-token-abc123" /\
    BaseClient.token (users (clients w2)) = Some "mock-jwt-token-abc123" /\
    RendevoClient.getRefreshToken (clients w2) = None.
Proof.
  pose proof (client_login credentials
                (facade_world Sample.config Sample.vitest (Sample.always login_response)))
    as H.
  destruct (on Auth (post "/auth/login" credentials None)
              (facade_world Sample.config Sample.vitest (Sample.always login_response)))
    as [[data|e] w1] eqn:E; vm_compute in E; inversion E; subst data w1.
  destruct (H "mock-jwt-token-abc123") as (w2 & E2 & H1 & H2 & H3 & H4 & H5);
    [discriminate | discriminate | reflexivity |].
  exists w2. repeat split; assumption.
Defined.

(** ** The factories of the test helpers *)

(** X22.  [createMockAuthResponse] never reads its [refreshToken] option:
    the [refresh_token] of the result is the [token] option when that is
    given and [mock-refresh-token-def456] when it is not.  So two option
    records that differ in [refreshToken] only give the same response, and
    a response made with a [token] has that token as its [access_token]
    and as its [refresh_token]. *)
Theorem mock_refresh_token_follows_token
    (token refreshToken refreshToken' : option string)
    (user : option UserFactoryOptions.t) :
  createMockAuthResponse
    {| AuthResponseFactoryOptions.token := token;
       AuthResponseFactoryOptions.refreshToken := refreshToken;
       AuthResponseFactoryOptions.user := user |} =
  createMockAuthResponse
    {| AuthResponseFactoryOptions.token := token;
       AuthResponseFactoryOptions.refreshToken := refreshToken';
       AuthResponseFactoryOptions.user := user |} /\
  prop "refresh_token"
    (createMockAuthResponse
       {| AuthResponseFactoryOptions.token := token;
          AuthResponseFactoryOptions.refreshToken := refreshToken;
          AuthResponseFactoryOptions.user := user |}) =
    VStr (nullish_or token "mock-refresh-token-def456") /\
  (forall t,
     token = Some t ->
     prop "access_token"
       (createMockAuthResponse
          {| AuthResponseFactoryOptions.token := token;
             AuthResponseFactoryOptions.refreshToken := refreshToken;
             AuthResponseFactoryOptions.user := user |}) = VStr t /\
     prop "refresh_token"
       (createMockAuthResponse
          {| AuthResponseFactoryOptions.token := token;
             AuthResponseFactoryOptions.refreshToken := refreshToken;
             AuthResponseFactoryOptions.user := user |}) = VStr t).
Proof.
  repeat split; subst; reflexivity.
Qed.

(** X23.  [createMockAdminUser] always makes an admin: the [role] of the
    result is [ADMIN] whatever [role] the options give, its [email] is the
    one of the options or else [admin@example.com], and every other field
    is the one [createMockUser] makes from the same options. *)
Theorem mock_admin_is_admin (options : UserFactoryOptions.t) :
  prop "role" (createMockAdminUser options) = VStr "ADMIN" /\
  prop "email" (createMockAdminUser options) =
    VStr (nullish_or (UserFactoryOptions.email options) "admin@example.com") /\
  (forall k,
     k <> "role" -> k <> "email" ->
     prop k (createMockAdminUser options) = prop k (createMockUser options)).
Proof.
  repeat split. intros k Hrole Hemail.
  unfold createMockAdminUser, createMockUser, prop. simpl.
  destruct (String.eqb_spec k "id"); [reflexivity|].
  destruct (String.eqb_spec k "email"); [congruence|].
  destruct (String.eqb_spec k "firstName"); [reflexivity|].
  destruct (String.eqb_spec k "lastName"); [reflexivity|].
  destruct (String.eqb_spec k "role"); [congruence|].
  reflexivity.
Qed.

(** X24.  The bodies made by [createMockApiResponse] and
    [createMockApiErrorResponse] are the two shapes the client looks for.
    A verb method that receives a 2xx JSON response with the body
    [createMockApiResponse(data)] returns [data] itself, whatever [data]
    is (an envelope of its own, [null], [undefined]).  An attempt that
    receives a JSON response that is not 2xx with the body
    [createMockApiErrorResponse(...)] throws a [RendevoAPIError] whose
    payload is that body unchanged and whose status is the one of the
    response, not the [statusCode] written in the body. *)
Theorem mock_bodies_round_trip (verb : Verb) (endpoint : string)
    (options : option RequestOptions.t) (st : State) (r : Response.t) :
  next_outcome st = Resolves r ->
  content_type_is_json (Response.content_type r) = true ->
  (forall data timestamp,
     Response.json r = Response.Parsed (createMockApiResponse data timestamp) ->
     Response.ok r = true ->
     fst (call verb endpoint options st) = Return data) /\
  (forall statusCode message path method timestamp,
     Response.json r =
       Response.Parsed
         (createMockApiErrorResponse statusCode message path method timestamp) ->
     Response.ok r = false ->
     fst (executeRequest endpoint (init_of verb options) st) =
       Throw (RendevoAPIError (Response.status r)
                (createMockApiErrorResponse statusCode message path method timestamp))).
Proof.
  intros Hnext Hct. split.
  - intros data timestamp Hjson Hok.
    destruct (attempt_success endpoint (init_of verb options) st r _ Hnext Hct Hjson Hok)
      as [ts E].
    apply request_return in E. rewrite call_unfold, E. reflexivity.
  - intros statusCode message path method timestamp Hjson Hok.
    destruct (attempt_api_error endpoint (init_of verb options) st r _ Hnext Hct Hjson Hok)
      as [ts E].
    rewrite E. reflexivity.
Qed.

Lemma mock_bodies_round_trip_witness :
  fst (UsersAPI.getMe
         (Sample.world Sample.production
            (Sample.always
               (Sample.json_response 200
                  (createMockApiResponse (createMockUser UserFactoryOptions.empty)
                     "2025-01-01T00:00:00.000Z"))))) =
    Return (createMockUser UserFactoryOptions.empty) /\
  fst (executeRequest "/users/999" (init_of GET None)
         (Sample.world Sample.production
            (Sample.always
               (Sample.json_response 404
                  (createMockApiErrorResponse (Int 500) "User not found" None None
                     "2025-01-01T00:00:00.000Z"))))) =
    Throw (RendevoAPIError 404
             (createMockApiErrorResponse (Int 500) "User not found" None None
                "2025-01-01T00:00:00.000Z")).
Proof.
  split.
  - exact (proj1 (mock_bodies_round_trip GET "/users/me" None
                    (Sample.world Sample.production
                       (Sample.always
                          (Sample.json_response 200
                             (createMockApiResponse (createMockUser UserFactoryOptions.empty)
                                "2025-01-01T00:00:00.000Z"))))
                    _ eq_refl eq_refl) _ _ eq_refl eq_refl).
  - exact (proj2 (mock_bodies_round_trip GET "/users/999" None
                    (Sample.world Sample.production
                       (Sample.always
                          (Sample.json_response 404
                             (createMockApiErrorResponse (Int 500) "User not found" None None
                                "2025-01-01T00:00:00.000Z"))))
                    _ eq_refl eq_refl) _ _ _ _ _ eq_refl eq_refl).
Defined.
